(** * Webhook outcome processing pipeline (backend/routers/webhooks.py)

    A shallow embedding of the ElevenLabs webhook router: the synchronous
    acknowledgment path [handle_elevenlabs_webhook], the background worker
    [process_call_outcome] and its two sub-flows
    [handle_successful_reschedule] and [create_follow_up_flag].

    Python values are modelled as the code uses them: rows and metadata are
    string-keyed dictionaries, [if x] is Python truthiness, [d["k"]] raises
    [KeyError], [d.get("k")] does not.  Awaited collaborator calls thread an
    explicit world (store state, background-task queue, trace of calls) and
    may raise. *)

From Stdlib Require Import ZArith String Ascii List Lia DecimalString.
From stdpp Require Import base option list gmap strings.

Local Open Scope string_scope.
Local Open Scope Z_scope.

(** ** Python values *)

Inductive pyval :=
| PNone
| PBool (b : bool)
| PInt (z : Z)
| PStr (s : string).

#[global] Instance pyval_eq_dec : EqDecision pyval.
Proof. solve_decision. Defined.

(** A row / JSON object: [dict] with string keys. *)
Abbreviation dict := (gmap string pyval).

(** [bool(x)] *)
Definition truthy (v : pyval) : bool :=
  match v with
  | PNone => false
  | PBool b => b
  | PInt z => negb (Z.eqb z 0)
  | PStr s => negb (String.eqb s "")
  end.

Definition decimal (z : Z) : string := NilZero.string_of_int (Z.to_int z).

(** [str(x)], as used by f-strings *)
Definition py_str (v : pyval) : string :=
  match v with
  | PNone => "None"
  | PBool true => "True"
  | PBool false => "False"
  | PInt z => decimal z
  | PStr s => s
  end.

(** [d.get(k)] *)
Definition dict_get (d : dict) (k : string) : pyval := default PNone (d !! k).

(** [d.get(k, dflt)] *)
Definition dict_get_default (d : dict) (k : string) (dflt : pyval) : pyval :=
  default dflt (d !! k).

(** [bool(d)] for a dictionary: non-empty *)
Definition dict_truthy (d : dict) : bool := negb (bool_decide (d = ∅)).

(** ** Exceptions and results *)

Inductive exn :=
| HTTPException (status_code : Z) (detail : string)
| KeyError (key : string)
| Exception (msg : string).

Definition HTTP_401_UNAUTHORIZED : Z := 401.
Definition HTTP_400_BAD_REQUEST : Z := 400.

(** [str(e)] *)
Definition exn_str (e : exn) : string :=
  match e with
  | HTTPException c d => decimal c +:+ ": " +:+ d
  | KeyError k => "'" +:+ k +:+ "'"
  | Exception m => m
  end.

Inductive res (A : Type) :=
| Ok (a : A)
| Raise (e : exn).
Arguments Ok {A} a.
Arguments Raise {A} e.

Definition raises {A} (r : res A) : bool :=
  match r with Ok _ => false | Raise _ => true end.

(** [d[k]] *)
Definition subscript (d : dict) (k : string) : res pyval :=
  match d !! k with
  | Some v => Ok v
  | None => Raise (KeyError k)
  end.

(** ** String operations used by the flagger *)

(** [s[:n]] *)
Fixpoint slice_to (n : nat) (s : string) : string :=
  match n, s with
  | O, _ => EmptyString
  | S _, EmptyString => EmptyString
  | S n', String c s' => String c (slice_to n' s')
  end.

(** [s.replace(a, b)] for a single-character [a] *)
Fixpoint replace (a : ascii) (b : string) (s : string) : string :=
  match s with
  | EmptyString => EmptyString
  | String c s' =>
      if Ascii.eqb c a then b +:+ replace a b s'
      else String c (replace a b s')
  end.

Definition is_lower (c : ascii) : bool :=
  let n := nat_of_ascii c in (Nat.leb 97 n && Nat.leb n 122)%bool.

Definition is_upper (c : ascii) : bool :=
  let n := nat_of_ascii c in (Nat.leb 65 n && Nat.leb n 90)%bool.

Definition to_upper (c : ascii) : ascii :=
  if is_lower c then ascii_of_nat (nat_of_ascii c - 32) else c.

Definition to_lower (c : ascii) : ascii :=
  if is_upper c then ascii_of_nat (nat_of_ascii c + 32) else c.

(** [s.title()]: the first cased character after an uncased one is
    upper-cased, every other cased character is lower-cased.  Characters
    are bytes here, so only ASCII letters are cased. *)
Fixpoint title_from (previous_is_cased : bool) (s : string) : string :=
  match s with
  | EmptyString => EmptyString
  | String c s' =>
      if is_lower c then
        String (if previous_is_cased then c else to_upper c) (title_from true s')
      else if is_upper c then
        String (if previous_is_cased then to_lower c else c) (title_from true s')
      else String c (title_from false s')
  end.

Definition title (s : string) : string := title_from false s.

(** ["\n".join(parts)] *)
Fixpoint join (sep : string) (parts : list string) : string :=
  match parts with
  | [] => ""
  | [p] => p
  | p :: rest => p +:+ sep +:+ join sep rest
  end.

Definition newline : string := String (ascii_of_nat 10) EmptyString.

(** ** Enumerations of models/schemas.py

    models/schemas.py is not part of the sources at hand; the tables below
    store the enumeration member where the code stores its [.value]. *)

(** Modelled from the spec: [CallStatus] of models/schemas.py, with the
    members of the CallAttempt status (pending, in-progress, completed,
    failed, no-answer). *)
Inductive CallStatus :=
| PENDING | IN_PROGRESS | COMPLETED | FAILED | NO_ANSWER.

(** Modelled from the spec: [CallResolution] of models/schemas.py, with the
    members of the CallAttempt resolution (rescheduled, declined,
    left-voicemail, callback-requested, no-answer). *)
Inductive CallResolution :=
| RESCHEDULED | DECLINED | LEFT_VOICEMAIL | CALLBACK_REQUESTED | RES_NO_ANSWER.

(** Modelled from the spec: [FlagPriority] of models/schemas.py (low,
    medium, high, urgent). *)
Inductive FlagPriority :=
| LOW | MEDIUM | HIGH | URGENT.

(** Modelled from the spec: the members of [EmailType] and [EmailStatus]
    that the router names. *)
Inductive EmailType := APPOINTMENT_RESCHEDULED.
Inductive EmailStatus := SENT.

(** ** Time

    [datetime] values are only passed on, printed and parsed by the router,
    so the library is an interface. *)

Class DateTimeLib := {
  datetime : Type;
  (** [str(dt)] *)
  datetime_str : datetime -> string;
  (** [datetime.fromisoformat(s)]; [None] stands for [ValueError] *)
  fromisoformat : string -> option datetime;
}.

(** ** Records exchanged with the collaborators *)

Section Records.
Context `{DT : DateTimeLib}.

(** [ElevenLabsWebhookPayload], with the fields the router reads. *)
Record ElevenLabsWebhookPayload := {
  call_id : string;
  status : string;
  outcome : option string;
  new_appointment_time : option datetime;
  transcript : option string;
  duration_seconds : option Z;
  metadata : option dict;
}.

Record WebhookResponse := {
  success : bool;
  message : string;
}.

(** The [call_update] dictionary of [process_call_outcome]. *)
Record CallUpdate := {
  cu_status : CallStatus;
  cu_resolution : option CallResolution;
  cu_completed_at : string;
  cu_transcript : option string;
  cu_duration_seconds : option Z;
}.

(** The [flag_data] dictionary of [create_follow_up_flag]. *)
Record FlagData := {
  flag_referral_id : pyval;
  flag_title : string;
  flag_description : string;
  flag_priority : FlagPriority;
  flag_status : string;
}.

(** Keyword arguments of [calendar.update_referral_event]. *)
Record CalendarUpdate := {
  google_event_id : pyval;
  scheduled_at : datetime;
  cal_notes : string;
  send_update : bool;
}.

(** Keyword arguments of [send_appointment_rescheduled_email]. *)
Record RescheduledEmail := {
  to_email : pyval;
  patient_name : pyval;
  mail_new_datetime : datetime;
  specialist_type : pyval;
  mail_old_datetime : option datetime;
  mail_location : pyval;
  mail_reason : string;
  attach_calendar : bool;
}.

(** The [email_log_data] dictionary. *)
Record EmailLog := {
  log_referral_id : string;
  log_email_type : EmailType;
  log_recipient_email : pyval;
  log_subject : string;
  log_status : EmailStatus;
  log_sendgrid_message_id : pyval;
  log_calendar_invite_attached : bool;
  log_sent_at : string;
}.

(** ** Trace of what a run does *)

Inductive event :=
| EvVerifySignature (body signature : string)
| EvParsePayload (body : string)
| EvGetCallLog (call_log_id : pyval)
| EvAddTask (call_log : dict) (payload : ElevenLabsWebhookPayload)
| EvUpdateCallLog (id : pyval) (call_update : CallUpdate)
| EvGetReferral (referral_id : pyval)
| EvRescheduleReferral (referral_id : pyval) (new_datetime : datetime)
    (reason : string)
| EvCalendarUpdate (args : CalendarUpdate)
| EvSendEmail (args : RescheduledEmail)
| EvCreateEmailLog (data : EmailLog)
| EvCreateFlag (flag_data : FlagData)
| EvPrint (line : string)
| EvTaskFailed (e : exn).

(** Events that write to a collaborator (store, calendar, mailer) or hand
    work to the background queue. *)
Definition is_side_effect (e : event) : bool :=
  match e with
  | EvVerifySignature _ _ | EvParsePayload _ | EvGetCallLog _
  | EvGetReferral _ | EvPrint _ | EvTaskFailed _ => false
  | _ => true
  end.

Definition is_print (e : event) : bool :=
  match e with EvPrint _ => true | _ => false end.

(** The calls only the Reschedule Orchestrator makes. *)
Definition is_reschedule_call (e : event) : bool :=
  match e with
  | EvGetReferral _ | EvRescheduleReferral _ _ _ | EvCalendarUpdate _
  | EvSendEmail _ | EvCreateEmailLog _ => true
  | _ => false
  end.

(** The call only the Follow-up Flagger makes. *)
Definition is_flag_call (e : event) : bool :=
  match e with EvCreateFlag _ => true | _ => false end.

Definition is_calendar_call (e : event) : bool :=
  match e with EvCalendarUpdate _ => true | _ => false end.

Definition is_email_call (e : event) : bool :=
  match e with EvSendEmail _ => true | _ => false end.

(** Writes to the rows of the store (call attempts, referrals, flags). *)
Definition is_row_write (e : event) : bool :=
  match e with
  | EvUpdateCallLog _ _ | EvRescheduleReferral _ _ _ | EvCreateFlag _ => true
  | _ => false
  end.

(** ** Collaborators

    The services package (store client, call provider, mailer, calendar)
    is an interface: every awaited call runs on the collaborators' state
    [S] and returns or raises; signature verification and the two fetches
    read the state, the other calls may change it.  [calendar_service] is
    [None] in a deployment without the optional calendar module
    (services/__init__.py), which is what [calendar_available] tests. *)

Record Services (S : Type) := {
  verify_webhook_signature : string -> string -> S -> res bool;
  parse_payload : string -> res ElevenLabsWebhookPayload;
  get_call_log : pyval -> S -> res (option dict);
  update_call_log : pyval -> CallUpdate -> S -> res unit * S;
  get_referral : pyval -> S -> res (option dict);
  reschedule_referral :
    pyval -> datetime -> string -> S -> res (option dict) * S;
  create_flag : FlagData -> S -> res unit * S;
  create_email_log : EmailLog -> S -> res unit * S;
  calendar_service : option (CalendarUpdate -> S -> res unit * S);
  send_appointment_rescheduled_email :
    RescheduledEmail -> S -> res dict * S;
  (** [datetime.utcnow().isoformat()] and [datetime.now().isoformat()] *)
  utcnow_isoformat : S -> string;
  now_isoformat : S -> string;
}.

End Records.

Arguments verify_webhook_signature {DT S} _ _ _ _.
Arguments parse_payload {DT S} _ _.
Arguments get_call_log {DT S} _ _ _.
Arguments update_call_log {DT S} _ _ _ _.
Arguments get_referral {DT S} _ _ _.
Arguments reschedule_referral {DT S} _ _ _ _ _.
Arguments create_flag {DT S} _ _ _.
Arguments create_email_log {DT S} _ _ _.
Arguments calendar_service {DT S} _.
Arguments send_appointment_rescheduled_email {DT S} _ _ _.
Arguments utcnow_isoformat {DT S} _ _.
Arguments now_isoformat {DT S} _ _.

(** ** The world a run threads through *)

Section Monad.
Context `{DT : DateTimeLib}.


Record World (S : Type) := {
  store : S;
  tasks : list (dict * ElevenLabsWebhookPayload);
  trace : list event;
}.
Arguments store {S} _.
Arguments tasks {S} _.
Arguments trace {S} _.

Definition M (S A : Type) : Type := World S -> res A * World S.

Section Operations.
Context {S : Type}.

Definition ret {A} (a : A) : M S A := fun w => (Ok a, w).

Definition raise {A} (e : exn) : M S A := fun w => (Raise e, w).

Definition bind {A B} (m : M S A) (k : A -> M S B) : M S B :=
  fun w =>
    match m w with
    | (Ok a, w') => k a w'
    | (Raise e, w') => (Raise e, w')
    end.

(** [try: body  except Exception as e: handler(e)] *)
Definition try_except {A} (body : M S A) (handler : exn -> M S A) : M S A :=
  fun w =>
    match body w with
    | (Ok a, w') => (Ok a, w')
    | (Raise e, w') => handler e w'
    end.

Definition lift {A} (r : res A) : M S A := fun w => (r, w).

Definition emit (e : event) : M S unit :=
  fun w =>
    (Ok tt, {| store := store w; tasks := tasks w;
               trace := (trace w ++ [e])%list |}).

(** An awaited collaborator call: recorded, then run on the store. *)
Definition call {A} (e : event) (op : S -> res A * S) : M S A :=
  fun w =>
    let (r, s') := op (store w) in
    (r, {| store := s'; tasks := tasks w; trace := (trace w ++ [e])%list |}).

(** An awaited fetch: recorded, then answered from the store. *)
Definition query {A} (e : event) (op : S -> res A) : M S A :=
  fun w =>
    (op (store w),
     {| store := store w; tasks := tasks w; trace := (trace w ++ [e])%list |}).

Definition print (line : string) : M S unit := emit (EvPrint line).

(** [background_tasks.add_task(process_call_outcome, ...)] *)
Definition add_task (call_log : dict) (payload : ElevenLabsWebhookPayload)
  : M S unit :=
  fun w =>
    (Ok tt, {| store := store w;
               tasks := (tasks w ++ [(call_log, payload)])%list;
               trace := (trace w ++ [EvAddTask call_log payload])%list |}).

Definition read {A} (f : S -> A) : M S A := fun w => (Ok (f (store w)), w).

End Operations.
End Monad.

Arguments store {DT S} _.
Arguments tasks {DT S} _.
Arguments trace {DT S} _.

Notation "x <- c1 ;; c2" := (bind c1 (fun x => c2))
  (at level 100, c1 at next level, right associativity).
Notation "c1 ;; c2" := (bind c1 (fun _ => c2))
  (at level 100, right associativity).

(** [bool(x)] for an optional string *)
Definition str_truthy (o : option string) : bool :=
  match o with
  | Some s => negb (String.eqb s "")
  | None => false
  end.

(** The row behind an optional row that passes [if row:]. *)
Definition truthy_row (o : option dict) : option dict :=
  match o with
  | Some d => if dict_truthy d then Some d else None
  | None => None
  end.

Section Pipeline.
Context `{DT : DateTimeLib} {S : Type} (svc : Services S).

(** ** The Outcome Mapper tables of [process_call_outcome] *)

Definition status_map : gmap string CallStatus :=
  list_to_map [("completed", COMPLETED); ("failed", FAILED);
               ("no_answer", NO_ANSWER)].

Definition resolution_map : gmap string CallResolution :=
  list_to_map [("rescheduled", RESCHEDULED); ("declined", DECLINED);
               ("voicemail", LEFT_VOICEMAIL);
               ("callback_requested", CALLBACK_REQUESTED);
               ("no_answer", RES_NO_ANSWER)].

(** [status_map.get(payload.status, CallStatus.COMPLETED.value)] *)
Definition mapped_status (payload : ElevenLabsWebhookPayload) : CallStatus :=
  default COMPLETED (status_map !! status payload).

(** [resolution_map.get(payload.outcome) if payload.outcome else None] *)
Definition mapped_resolution (payload : ElevenLabsWebhookPayload)
  : option CallResolution :=
  match outcome payload with
  | Some o => if str_truthy (Some o) then resolution_map !! o else None
  | None => None
  end.

(** [payload.outcome or payload.status] *)
Definition outcome_or_status (payload : ElevenLabsWebhookPayload) : string :=
  match outcome payload with
  | Some o => if str_truthy (Some o) then o else status payload
  | None => status payload
  end.

(** ** Follow-up Flagger: [create_follow_up_flag] *)

Definition priority_map : gmap string FlagPriority :=
  list_to_map [("declined", HIGH); ("no_answer", MEDIUM);
               ("voicemail", MEDIUM); ("callback_requested", HIGH);
               ("invalid_number", URGENT); ("failed", HIGH)].

(** [priority_map.get(call_outcome, FlagPriority.MEDIUM.value)] *)
Definition priority_for (call_outcome : string) : FlagPriority :=
  default MEDIUM (priority_map !! call_outcome).

Definition description_parts (call_outcome : string)
    (transcript : option string) : list string :=
  let parts :=
    ["Automated call outcome: " +:+ call_outcome;
     "Patient needs manual follow-up to reschedule missed referral."] in
  match transcript with
  | Some t =>
      if str_truthy (Some t) then
        (parts ++ [newline +:+ "Call transcript:" +:+ newline
                   +:+ slice_to 500 t +:+ "..."])%list
      else parts
  | None => parts
  end.

Definition flag_data_for (referral_id : pyval) (call_outcome : string)
    (transcript : option string) : FlagData :=
  {| flag_referral_id := referral_id;
     flag_title :=
       "Follow-up needed: " +:+ title (replace "_" " " call_outcome);
     flag_description := join newline (description_parts call_outcome transcript);
     flag_priority := priority_for call_outcome;
     flag_status := "open" |}.

Definition create_follow_up_flag (referral_id : pyval) (call_outcome : string)
    (transcript : option string) : M S unit :=
  let flag_data := flag_data_for referral_id call_outcome transcript in
  call (EvCreateFlag flag_data) (create_flag svc flag_data) ;;
  print ("Created follow-up flag for referral " +:+ py_str referral_id).

(** ** Reschedule Orchestrator: [handle_successful_reschedule] *)

Definition reschedule_reason : string := "Rescheduled via automated call".

(** The [old_datetime] block: parsed from the row's [scheduled_date] when
    that is truthy; any exception of the parse leaves [None] (bare
    [except: pass]). *)
Definition old_datetime_of (existing : dict) : option datetime :=
  if truthy (dict_get existing "scheduled_date") then
    match dict_get existing "scheduled_date" with
    | PStr s => fromisoformat (replace "Z" "+00:00" s)
    | _ => None
    end
  else None.

Definition calendar_update_for (event_id : pyval) (referral : dict)
    (new_datetime : datetime) : CalendarUpdate :=
  {| google_event_id := event_id;
     scheduled_at := new_datetime;
     cal_notes :=
       "Rescheduled via automated call. "
       +:+ py_str (dict_get_default referral "notes" (PStr ""));
     send_update := true |}.

(** Step 2: the calendar block, inside its own [try]/[except Exception]. *)
Definition calendar_step (existing referral : dict) (new_datetime : datetime)
  : M S unit :=
  match calendar_service svc with
  | Some update_referral_event =>
      if truthy (dict_get existing "calendar_event_id") then
        try_except
          (event_id <- lift (subscript existing "calendar_event_id") ;;
           let args := calendar_update_for event_id referral new_datetime in
           call (EvCalendarUpdate args) (update_referral_event args) ;;
           event_id' <- lift (subscript existing "calendar_event_id") ;;
           print ("✅ Google Calendar event updated: " +:+ py_str event_id'))
          (fun e =>
             print ("⚠️  Failed to update Google Calendar: " +:+ exn_str e))
      else ret tt
  | None => ret tt
  end.

(** Step 3: the email block, inside its own [try]/[except Exception]. *)
Definition email_step (referral_id : pyval) (referral : dict)
    (new_datetime : datetime) (old_datetime : option datetime) : M S unit :=
  if truthy (dict_get referral "patient_email") then
    try_except
      (to <- lift (subscript referral "patient_email") ;;
       name <- lift (subscript referral "patient_name") ;;
       specialist <- lift (subscript referral "specialist_type") ;;
       let args :=
         {| to_email := to;
            patient_name := name;
            mail_new_datetime := new_datetime;
            specialist_type := specialist;
            mail_old_datetime := old_datetime;
            mail_location := PNone;
            mail_reason := reschedule_reason;
            attach_calendar := true |} in
       email_result <-
         call (EvSendEmail args) (send_appointment_rescheduled_email svc args) ;;
       if truthy (dict_get email_result "success") then
         recipient <- lift (subscript referral "patient_email") ;;
         specialist' <- lift (subscript referral "specialist_type") ;;
         sent_at <- read (now_isoformat svc) ;;
         let email_log_data :=
           {| log_referral_id := py_str referral_id;
              log_email_type := APPOINTMENT_RESCHEDULED;
              log_recipient_email := recipient;
              log_subject :=
                "Appointment Rescheduled - " +:+ py_str specialist';
              log_status := SENT;
              log_sendgrid_message_id := dict_get email_result "message_id";
              log_calendar_invite_attached := true;
              log_sent_at := sent_at |} in
         call (EvCreateEmailLog email_log_data)
              (create_email_log svc email_log_data) ;;
         recipient' <- lift (subscript referral "patient_email") ;;
         print ("✅ Rescheduled email sent to " +:+ py_str recipient')
       else ret tt)
      (fun e =>
         print ("⚠️  Failed to send reschedule email: " +:+ exn_str e))
  else ret tt.

Definition reschedule_done (referral_id : pyval) : string :=
  "✅ Successfully completed reschedule workflow for referral "
  +:+ py_str referral_id.

Definition handle_successful_reschedule (referral_id : pyval)
    (new_datetime : datetime) : M S unit :=
  existing <- query (EvGetReferral referral_id) (get_referral svc referral_id) ;;
  match truthy_row existing with
  | None => print ("Referral " +:+ py_str referral_id +:+ " not found")
  | Some existing =>
      let old_datetime := old_datetime_of existing in
      referral <-
        call (EvRescheduleReferral referral_id new_datetime reschedule_reason)
             (reschedule_referral svc referral_id new_datetime
                reschedule_reason) ;;
      match truthy_row referral with
      | None =>
          print ("Failed to reschedule referral " +:+ py_str referral_id)
      | Some referral =>
          print ("✅ Referral " +:+ py_str referral_id
                 +:+ " rescheduled: Status changed from "
                 +:+ py_str (dict_get existing "status")
                 +:+ " to SCHEDULED") ;;
          print ("   New appointment: " +:+ datetime_str new_datetime) ;;
          calendar_step existing referral new_datetime ;;
          email_step referral_id referral new_datetime old_datetime ;;
          print (reschedule_done referral_id)
      end
  end.

(** ** Outcome Processor: [process_call_outcome] *)

(** [payload.outcome == "rescheduled" and payload.new_appointment_time];
    a [datetime] is always truthy. *)
Definition reschedule_time (payload : ElevenLabsWebhookPayload)
  : option datetime :=
  match outcome payload with
  | Some o =>
      if String.eqb o "rescheduled" then new_appointment_time payload
      else None
  | None => None
  end.

Definition call_update_for (payload : ElevenLabsWebhookPayload)
    (completed_at : string) : CallUpdate :=
  {| cu_status := mapped_status payload;
     cu_resolution := mapped_resolution payload;
     cu_completed_at := completed_at;
     cu_transcript := transcript payload;
     cu_duration_seconds := duration_seconds payload |}.

(** The two arms of the [if] of [process_call_outcome]. *)
Definition reschedule_branch (referral_id : pyval) (new_datetime : datetime)
  : M S unit :=
  print ("📞 Call outcome: RESCHEDULED - Updating referral "
         +:+ py_str referral_id) ;;
  print "   Status will change from MISSED → SCHEDULED" ;;
  print ("   New appointment: " +:+ datetime_str new_datetime) ;;
  handle_successful_reschedule referral_id new_datetime.

Definition follow_up_branch (referral_id : pyval)
    (payload : ElevenLabsWebhookPayload) : M S unit :=
  print ("📞 Call outcome: " +:+ outcome_or_status payload) ;;
  print ("   Referral " +:+ py_str referral_id
         +:+ " remains MISSED - creating follow-up flag") ;;
  create_follow_up_flag referral_id (outcome_or_status payload)
    (transcript payload).

Definition process_call_outcome (call_log : dict)
    (payload : ElevenLabsWebhookPayload) : M S unit :=
  completed_at <- read (utcnow_isoformat svc) ;;
  let call_update := call_update_for payload completed_at in
  id <- lift (subscript call_log "id") ;;
  call (EvUpdateCallLog id call_update) (update_call_log svc id call_update) ;;
  referral_id <- lift (subscript call_log "referral_id") ;;
  match reschedule_time payload with
  | Some new_datetime => reschedule_branch referral_id new_datetime
  | None => follow_up_branch referral_id payload
  end.

(** ** Acknowledgment Path: [handle_elevenlabs_webhook] *)

(** [payload.metadata.get("call_log_id") if payload.metadata else None] *)
Definition call_log_id_of (payload : ElevenLabsWebhookPayload) : pyval :=
  match metadata payload with
  | Some md => if dict_truthy md then dict_get md "call_log_id" else PNone
  | None => PNone
  end.

Definition handle_elevenlabs_webhook (body : string)
    (x_webhook_signature : option string) : M S WebhookResponse :=
  let signature := default "" x_webhook_signature in
  verified <-
    query (EvVerifySignature body signature)
          (verify_webhook_signature svc body signature) ;;
  if negb verified then
    raise (HTTPException HTTP_401_UNAUTHORIZED "Invalid webhook signature")
  else
    payload <-
      try_except
        (emit (EvParsePayload body) ;; lift (parse_payload svc body))
        (fun e =>
           raise (HTTPException HTTP_400_BAD_REQUEST
                    ("Invalid payload: " +:+ exn_str e))) ;;
    let call_log_id := call_log_id_of payload in
    if negb (truthy call_log_id) then
      print "Missing call_log_id in ElevenLabs webhook metadata" ;;
      ret {| success := true; message := "Call log ID not found, ignoring" |}
    else
      call_log <-
        query (EvGetCallLog call_log_id) (get_call_log svc call_log_id) ;;
      match truthy_row call_log with
      | None =>
          print ("Unknown call_log_id: " +:+ py_str call_log_id) ;;
          ret {| success := true; message := "Call log not found, ignoring" |}
      | Some call_log =>
          add_task call_log payload ;;
          ret {| success := true; message := "Webhook received, processing" |}
      end.

(** ** Running the queue

    The framework runs the queued background tasks in order once the
    response has been sent; an exception of a task ends the run and reaches
    the server log only, never the response. *)

Fixpoint run_tasks (ts : list (dict * ElevenLabsWebhookPayload)) : M S unit :=
  match ts with
  | [] => ret tt
  | (call_log, payload) :: rest =>
      process_call_outcome call_log payload ;;
      run_tasks rest
  end.

Definition take_tasks : M S (list (dict * ElevenLabsWebhookPayload)) :=
  fun w =>
    (Ok (tasks w), {| store := store w; tasks := []; trace := trace w |}).

(** One delivery: handler, response, then the queued tasks. *)
Definition deliver (body : string) (x_webhook_signature : option string)
  : M S WebhookResponse :=
  response <- handle_elevenlabs_webhook body x_webhook_signature ;;
  ts <- take_tasks ;;
  try_except (run_tasks ts) (fun e => emit (EvTaskFailed e)) ;;
  ret response.

End Pipeline.



(** ** An in-memory deployment

    Concrete collaborators on which the pipeline can be run: a store of
    rows, a mailer and a calendar that record what they are asked, and
    switches for the failures the router has to cope with. *)

Module InMemory.

(** Timestamps as their text. *)
#[export] Instance text_datetime : DateTimeLib :=
  {| datetime := string;
     datetime_str := fun s => s;
     fromisoformat := fun s => if String.eqb s "" then None else Some s |}.

(** Modelled from the spec: the [.value] strings of [CallStatus] and
    [CallResolution] (models/schemas.py), as the store keeps them. *)
Definition CallStatus_value (st : CallStatus) : string :=
  match st with
  | PENDING => "pending"
  | IN_PROGRESS => "in_progress"
  | COMPLETED => "completed"
  | FAILED => "failed"
  | NO_ANSWER => "no_answer"
  end.

Definition CallResolution_value (r : CallResolution) : string :=
  match r with
  | RESCHEDULED => "rescheduled"
  | DECLINED => "declined"
  | LEFT_VOICEMAIL => "left_voicemail"
  | CALLBACK_REQUESTED => "callback_requested"
  | RES_NO_ANSWER => "no_answer"
  end.

Record Store := {
  call_logs : gmap string dict;
  referrals : gmap string dict;
  flags : list FlagData;
  email_logs : list EmailLog;
  calendar_updates : list CalendarUpdate;
  sent_emails : list RescheduledEmail;
  clock : Z;
}.

Record Deployment := {
  (** the signature the provider computes for a body *)
  sign : string -> string;
  decode : string -> res ElevenLabsWebhookPayload;
  (** [None]: no calendar module; [Some r]: every calendar update answers [r] *)
  calendar : option (res unit);
  (** [Some r]: the reschedule write answers [r] and writes nothing *)
  reschedule_fault : option (res (option dict));
}.

Definition timestamp (s : Store) : string := "t" +:+ decimal (clock s).

Definition opt_str (o : option string) : pyval :=
  match o with Some s => PStr s | None => PNone end.

Definition opt_int (o : option Z) : pyval :=
  match o with Some z => PInt z | None => PNone end.

Definition row_of_update (u : CallUpdate) (row : dict) : dict :=
  <["status" := PStr (CallStatus_value (cu_status u))]>
  (<["resolution" := opt_str (CallResolution_value <$> cu_resolution u)]>
  (<["completed_at" := PStr (cu_completed_at u)]>
  (<["transcript" := opt_str (cu_transcript u)]>
  (<["duration_seconds" := opt_int (cu_duration_seconds u)]> row)))).

(** Modelled from the spec: the persistent store collaborator
    (fetch-call-attempt-by-id, update-call-attempt, fetch-referral-by-id,
    update-referral-with-reschedule, create-follow-up-flag,
    create-notification-log-entry); services/supabase_client.py is not part
    of the sources at hand. *)
Definition mem_get_call_log (id : pyval) (s : Store) : res (option dict) :=
  match id with
  | PStr k => Ok (call_logs s !! k)
  | _ => Ok None
  end.

Definition mem_update_call_log (id : pyval) (u : CallUpdate) (s : Store)
  : res unit * Store :=
  match id with
  | PStr k =>
      (Ok tt,
       {| call_logs := alter (row_of_update u) k (call_logs s);
          referrals := referrals s; flags := flags s;
          email_logs := email_logs s;
          calendar_updates := calendar_updates s;
          sent_emails := sent_emails s; clock := clock s + 1 |})
  | _ => (Ok tt, s)
  end.

Definition mem_get_referral (id : pyval) (s : Store) : res (option dict) :=
  match id with
  | PStr k => Ok (referrals s !! k)
  | _ => Ok None
  end.

Definition mem_reschedule_referral (d : Deployment) (id : pyval)
    (new_datetime : string) (reason : string) (s : Store)
  : res (option dict) * Store :=
  match reschedule_fault d with
  | Some r => (r, s)
  | None =>
      match id with
      | PStr k =>
          match referrals s !! k with
          | Some row =>
              let row' :=
                <["status" := PStr "scheduled"]>
                (<["scheduled_date" := PStr new_datetime]> row) in
              (Ok (Some row'),
               {| call_logs := call_logs s;
                  referrals := <[k := row']> (referrals s);
                  flags := flags s; email_logs := email_logs s;
                  calendar_updates := calendar_updates s;
                  sent_emails := sent_emails s; clock := clock s + 1 |})
          | None => (Ok None, s)
          end
      | _ => (Ok None, s)
      end
  end.

Definition mem_create_flag (f : FlagData) (s : Store) : res unit * Store :=
  (Ok tt,
   {| call_logs := call_logs s; referrals := referrals s;
      flags := (flags s ++ [f])%list; email_logs := email_logs s;
      calendar_updates := calendar_updates s;
      sent_emails := sent_emails s; clock := clock s + 1 |}).

Definition mem_create_email_log (l : EmailLog) (s : Store)
  : res unit * Store :=
  (Ok tt,
   {| call_logs := call_logs s; referrals := referrals s;
      flags := flags s; email_logs := (email_logs s ++ [l])%list;
      calendar_updates := calendar_updates s;
      sent_emails := sent_emails s; clock := clock s + 1 |}).

(** Modelled from the spec: the calendar collaborator (update-event). *)
Definition mem_update_referral_event (r : res unit) (args : CalendarUpdate)
    (s : Store) : res unit * Store :=
  match r with
  | Ok _ =>
      (Ok tt,
       {| call_logs := call_logs s; referrals := referrals s;
          flags := flags s; email_logs := email_logs s;
          calendar_updates := (calendar_updates s ++ [args])%list;
          sent_emails := sent_emails s; clock := clock s + 1 |})
  | Raise e => (Raise e, s)
  end.

(** Modelled from the spec: the email collaborator
    (send-reschedule-notification, answering a success flag and a message
    id). *)
Definition mem_send_email (args : RescheduledEmail) (s : Store)
  : res dict * Store :=
  (Ok (<["success" := PBool true]> {["message_id" := PStr "msg-1"]}),
   {| call_logs := call_logs s; referrals := referrals s;
      flags := flags s; email_logs := email_logs s;
      calendar_updates := calendar_updates s;
      sent_emails := (sent_emails s ++ [args])%list; clock := clock s + 1 |}).

(** Modelled from the spec: the Signature Verifier
    (services/elevenlabs_service.py): the header must equal the signature of
    the raw body. *)
Definition mem_verify (d : Deployment) (body signature : string) (s : Store)
  : res bool :=
  Ok (String.eqb signature (sign d body)).

Definition services (d : Deployment) : Services Store :=
  {| verify_webhook_signature := mem_verify d;
     parse_payload := decode d;
     get_call_log := mem_get_call_log;
     update_call_log := mem_update_call_log;
     get_referral := mem_get_referral;
     reschedule_referral := mem_reschedule_referral d;
     create_flag := mem_create_flag;
     create_email_log := mem_create_email_log;
     calendar_service := mem_update_referral_event <$> calendar d;
     send_appointment_rescheduled_email := mem_send_email;
     utcnow_isoformat := timestamp;
     now_isoformat := timestamp |}.

Definition start (s : Store) : World Store :=
  {| store := s; tasks := []; trace := [] |}.

(** *** A referral, its call attempt and the events of the scenarios *)

Definition call_log_c1 : dict :=
  list_to_map [("id", PStr "c1"); ("referral_id", PStr "r1");
               ("status", PStr "in_progress")].

Definition referral_r1 : dict :=
  list_to_map [("id", PStr "r1"); ("status", PStr "missed");
               ("scheduled_date", PStr "2026-01-10T09:00:00Z");
               ("calendar_event_id", PStr "evt-1");
               ("patient_email", PStr "pat@example.org");
               ("patient_name", PStr "Pat");
               ("specialist_type", PStr "cardiology")].

Definition store0 : Store :=
  {| call_logs := {["c1" := call_log_c1]};
     referrals := {["r1" := referral_r1]};
     flags := []; email_logs := []; calendar_updates := [];
     sent_emails := []; clock := 0 |}.

Definition correlation (call_log_id : string) : option dict :=
  Some (<["call_log_id" := PStr call_log_id]> {["referral_id" := PStr "r1"]}).

Definition event_of (status : string) (outcome : option string)
    (new_appointment_time : option string) (metadata : option dict)
  : ElevenLabsWebhookPayload :=
  {| call_id := "call-1"; status := status; outcome := outcome;
     new_appointment_time := new_appointment_time;
     transcript := Some "Hello, this is the clinic calling.";
     duration_seconds := Some 42; metadata := metadata |}.

Definition new_time : string := "2026-02-01T14:00:00Z".

(** Scenario A. *)
Definition rescheduled_event :=
  event_of "completed" (Some "rescheduled") (Some new_time) (correlation "c1").
(** Scenario B. *)
Definition declined_event :=
  event_of "failed" (Some "declined") None (correlation "c1").
(** An outcome "rescheduled" that carries no new time. *)
Definition rescheduled_no_time_event :=
  event_of "completed" (Some "rescheduled") None (correlation "c1").
(** A status the provider vocabulary does not have. *)
Definition busy_event := event_of "busy" None None (correlation "c1").
(** Scenario E. *)
Definition stale_event :=
  event_of "failed" (Some "declined") None (correlation "c404").
Definition uncorrelated_event :=
  event_of "failed" (Some "declined") None None.

Definition bodies : list (string * ElevenLabsWebhookPayload) :=
  [("rescheduled", rescheduled_event); ("declined", declined_event);
   ("rescheduled-no-time", rescheduled_no_time_event);
   ("busy", busy_event); ("stale", stale_event);
   ("uncorrelated", uncorrelated_event)].

Fixpoint decode_body (table : list (string * ElevenLabsWebhookPayload))
    (body : string) : res ElevenLabsWebhookPayload :=
  match table with
  | [] => Raise (Exception "Expecting value: line 1 column 1 (char 0)")
  | (b, payload) :: rest =>
      if String.eqb b body then Ok payload else decode_body rest body
  end.

Definition deployment (calendar : option (res unit))
    (reschedule_fault : option (res (option dict))) : Deployment :=
  {| sign := fun body => "sha256=" +:+ body;
     decode := decode_body bodies;
     calendar := calendar;
     reschedule_fault := reschedule_fault |}.

Definition healthy : Services Store :=
  services (deployment (Some (Ok tt)) None).
Definition calendar_down : Services Store :=
  services (deployment (Some (Raise (Exception "calendar unavailable"))) None).
Definition reschedule_answers_nothing : Services Store :=
  services (deployment (Some (Ok tt)) (Some (Ok None))).

(** A header as the provider signs it. *)
Definition signed (body : string) : option string := Some ("sha256=" +:+ body).

(** The store once the update of [payload] has been written at time t0. *)
Definition updated (payload : ElevenLabsWebhookPayload) : Store :=
  (mem_update_call_log (PStr "c1") (call_update_for payload "t0") store0).2.

Definition rescheduled_row : dict :=
  <["status" := PStr "scheduled"]>
  (<["scheduled_date" := PStr new_time]> referral_r1).

Definition store_after_step1 : Store :=
  (mem_reschedule_referral (deployment (Some (Ok tt)) None) (PStr "r1")
     new_time reschedule_reason store0).2.

(** *** Deployments in which one collaborator fails *)

(** The healthy deployment with one call replaced. *)
Definition store_refuses_update : Services Store :=
  {| verify_webhook_signature := verify_webhook_signature healthy;
     parse_payload := parse_payload healthy;
     get_call_log := get_call_log healthy;
     update_call_log := fun _ _ s => (Raise (Exception "connection reset"), s);
     get_referral := get_referral healthy;
     reschedule_referral := reschedule_referral healthy;
     create_flag := create_flag healthy;
     create_email_log := create_email_log healthy;
     calendar_service := calendar_service healthy;
     send_appointment_rescheduled_email :=
       send_appointment_rescheduled_email healthy;
     utcnow_isoformat := utcnow_isoformat healthy;
     now_isoformat := now_isoformat healthy |}.

Definition store_refuses_flag : Services Store :=
  {| verify_webhook_signature := verify_webhook_signature healthy;
     parse_payload := parse_payload healthy;
     get_call_log := get_call_log healthy;
     update_call_log := update_call_log healthy;
     get_referral := get_referral healthy;
     reschedule_referral := reschedule_referral healthy;
     create_flag := fun _ s => (Raise (Exception "connection reset"), s);
     create_email_log := create_email_log healthy;
     calendar_service := calendar_service healthy;
     send_appointment_rescheduled_email :=
       send_appointment_rescheduled_email healthy;
     utcnow_isoformat := utcnow_isoformat healthy;
     now_isoformat := now_isoformat healthy |}.

Definition mailer_down : Services Store :=
  {| verify_webhook_signature := verify_webhook_signature healthy;
     parse_payload := parse_payload healthy;
     get_call_log := get_call_log healthy;
     update_call_log := update_call_log healthy;
     get_referral := get_referral healthy;
     reschedule_referral := reschedule_referral healthy;
     create_flag := create_flag healthy;
     create_email_log := create_email_log healthy;
     calendar_service := calendar_service healthy;
     send_appointment_rescheduled_email :=
       fun _ s => (Raise (Exception "SMTP timeout"), s);
     utcnow_isoformat := utcnow_isoformat healthy;
     now_isoformat := now_isoformat healthy |}.

(** A row that has an address and nothing else. *)
Definition address_only : dict :=
  list_to_map [("patient_email", PStr "pat@example.org")].

(** A call log row that lacks its referral. *)
Definition row_without_referral : dict := list_to_map [("id", PStr "c1")].

(** A call log row whose referral the store does not have. *)
Definition row_of_lost_referral : dict :=
  list_to_map [("id", PStr "c1"); ("referral_id", PStr "r404")].

(** An event whose outcome is the empty string. *)
Definition empty_outcome_event :=
  event_of "no_answer" (Some "") None (correlation "c1").

End InMemory.

(** * Authentication router (backend/routers/auth.py)

    Login, registration and the token dependency of the protected routes.
    The password hashing context, the JWT library, [uuid.UUID] and the
    store client are interfaces; the router's own control flow is embedded
    as written. *)

Module Auth.

(** The exceptions the router raises or lets through. *)
Inductive exc :=
| HTTPException (status_code : Z) (detail : string)
    (headers : list (string * string))
| JWTError (msg : string)
| KeyError (key : string)
| ValueError (msg : string)
| Exception (msg : string).

Inductive result (A : Type) :=
| Returns (a : A)
| Raises (e : exc).
Arguments Returns {A} a.
Arguments Raises {A} e.

Definition is_JWTError (e : exc) : bool :=
  match e with JWTError _ => true | _ => false end.

Definition HTTP_400_BAD_REQUEST : Z := 400.
Definition HTTP_401_UNAUTHORIZED : Z := 401.
Definition HTTP_403_FORBIDDEN : Z := 403.
Definition HTTP_500_INTERNAL_SERVER_ERROR : Z := 500.

(** [d[k]] *)
Definition subscript (d : dict) (k : string) : result pyval :=
  match d !! k with
  | Some v => Returns v
  | None => Raises (KeyError k)
  end.

(** Module-level configuration, read from the environment at import. *)
Record Config := {
  SECRET_KEY : string;
  ALGORITHM : string;
  ACCESS_TOKEN_EXPIRE_HOURS : Z;
}.

(** Times are microseconds: a [datetime] since the epoch, a [timedelta] as
    its length.  [timedelta(hours=h)] *)
Definition timedelta_hours (h : Z) : Z := h * 3600000000.

(** [UserCreate], with [role] as its [.value]. *)
Record UserCreate := {
  email : string;
  password : string;
  role : string;
  first_name : string;
  last_name : string;
}.

(** [OAuth2PasswordRequestForm], with the fields [login] reads. *)
Record LoginForm := {
  username : string;
  form_password : string;
}.

(** The dictionary [login] returns. *)
Record TokenResponse := {
  access_token : string;
  token_type : string;
  expires_in : Z;
  user : dict;
}.

Declare Scope auth_scope.
Delimit Scope auth_scope with auth.

Section Router.
(** [UUID] is the type of parsed identifiers, [S] the state of the store
    and of the hashing context's salt source. *)
Context {UUID S : Type}.

Inductive call :=
| GetUserByEmail (email : string)
| GetUser (user_id : UUID)
| CreateUser (user_data : dict)
| UpdateUserLastLogin (user_id : UUID).

Definition is_write (c : call) : bool :=
  match c with
  | CreateUser _ | UpdateUserLastLogin _ => true
  | _ => false
  end.

Record Libs := {
  (** [pwd_context.hash(password)]: salted, so it draws on the state *)
  pwd_hash : string -> S -> result string * S;
  (** [pwd_context.verify(plain, hashed)] *)
  pwd_verify : string -> pyval -> result bool;
  (** [jwt.encode(claims, key, algorithm=alg)] *)
  jwt_encode : dict -> string -> string -> result string;
  (** [jwt.decode(token, key, algorithms=[alg])]; expiry is checked against
      the clock, so it reads the state *)
  jwt_decode : string -> string -> list string -> S -> result dict;
  (** [uuid.UUID(x)] *)
  parse_uuid : pyval -> result UUID;
  (** [datetime.now(timezone.utc)] *)
  now_utc : S -> Z;
  get_user : UUID -> S -> result (option dict);
  get_user_by_email : string -> S -> result (option dict);
  create_user : dict -> S -> result (option dict) * S;
  update_user_last_login : UUID -> S -> result unit * S;
}.

Context (cfg : Config) (lib : Libs).

Record World := {
  store : S;
  calls : list call;
}.

Definition M (A : Type) : Type := World -> result A * World.

Definition ret {A} (a : A) : M A := fun w => (Returns a, w).
Definition raise {A} (e : exc) : M A := fun w => (Raises e, w).
Definition lift {A} (r : result A) : M A := fun w => (r, w).

Definition bind {A B} (m : M A) (k : A -> M B) : M B :=
  fun w =>
    match m w with
    | (Returns a, w') => k a w'
    | (Raises e, w') => (Raises e, w')
    end.

(** [try: body  except JWTError: handler]; any other exception passes. *)
Definition try_except_JWTError {A} (body : M A) (handler : M A) : M A :=
  fun w =>
    match body w with
    | (Raises (JWTError _), w') => handler w'
    | other => other
    end.

(** A library call that may draw on the state, not a store call. *)
Definition effect {A} (op : S -> result A * S) : M A :=
  fun w =>
    let (r, s') := op (store w) in (r, {| store := s'; calls := calls w |}).

Definition read {A} (f : S -> A) : M A :=
  fun w => (Returns (f (store w)), w).

(** An awaited fetch of the store. *)
Definition fetch {A} (c : call) (op : S -> result A) : M A :=
  fun w =>
    (op (store w), {| store := store w; calls := (calls w ++ [c])%list |}).

(** An awaited write of the store. *)
Definition write {A} (c : call) (op : S -> result A * S) : M A :=
  fun w =>
    let (r, s') := op (store w) in
    (r, {| store := s'; calls := (calls w ++ [c])%list |}).

Notation "x <- c1 ;; c2" := (bind c1 (fun x => c2))
  (at level 100, c1 at next level, right associativity) : auth_scope.
Notation "c1 ;; c2" := (bind c1 (fun _ => c2))
  (at level 100, right associativity) : auth_scope.
Local Open Scope auth_scope.

(** [user.get("is_active", True)] as a condition *)
Definition is_active (user : dict) : bool :=
  truthy (dict_get_default user "is_active" (PBool true)).

Definition verify_password (plain_password : string) (hashed_password : pyval)
  : result bool :=
  pwd_verify lib plain_password hashed_password.

Definition get_password_hash (password : string) : M string :=
  effect (pwd_hash lib password).

(** [bool(expires_delta)]: [None] and the zero [timedelta] are falsy. *)
Definition delta_truthy (expires_delta : option Z) : bool :=
  match expires_delta with
  | Some d => negb (Z.eqb d 0)
  | None => false
  end.

(** The claims signed by [create_access_token]: a copy of [data] with
    ["exp"] set. *)
Definition claims_for (data : dict) (expires_delta : option Z) (now : Z)
  : dict :=
  let expire :=
    if delta_truthy expires_delta then now + default 0 expires_delta
    else now + timedelta_hours (ACCESS_TOKEN_EXPIRE_HOURS cfg) in
  <["exp" := PInt expire]> data.

Definition create_access_token (data : dict) (expires_delta : option Z)
  : M string :=
  now <- read (now_utc lib) ;;
  let to_encode := claims_for data expires_delta now in
  lift (jwt_encode lib to_encode (SECRET_KEY cfg) (ALGORITHM cfg)).

Definition credentials_exception : exc :=
  HTTPException HTTP_401_UNAUTHORIZED "Could not validate credentials"
    [("WWW-Authenticate", "Bearer")].

Definition get_current_user_from_token (token : string) : M dict :=
  user_id <-
    try_except_JWTError
      (payload <-
         (fun w => (jwt_decode lib token (SECRET_KEY cfg) [ALGORITHM cfg]
                      (store w), w)) ;;
       let user_id := dict_get payload "sub" in
       match user_id with
       | PNone => raise credentials_exception
       | _ => ret user_id
       end)
      (raise credentials_exception) ;;
  id <- lift (parse_uuid lib user_id) ;;
  user <- fetch (GetUser id) (get_user lib id) ;;
  match user with
  | None => raise credentials_exception
  | Some user =>
      if negb (is_active user) then
        raise (HTTPException HTTP_403_FORBIDDEN "User account is inactive" [])
      else ret user
  end.

Definition user_data_for (user : UserCreate) (password_hash : string) : dict :=
  list_to_map
    [("email", PStr (email user));
     ("password_hash", PStr password_hash);
     ("role", PStr (role user));
     ("first_name", PStr (first_name user));
     ("last_name", PStr (last_name user));
     ("is_active", PBool true)].

Definition register_user (user : UserCreate) : M dict :=
  existing <-
    fetch (GetUserByEmail (email user)) (get_user_by_email lib (email user)) ;;
  match truthy_row existing with
  | Some _ =>
      raise (HTTPException HTTP_400_BAD_REQUEST "Email already registered" [])
  | None =>
      password_hash <- get_password_hash (password user) ;;
      let user_data := user_data_for user password_hash in
      created_user <- write (CreateUser user_data) (create_user lib user_data) ;;
      match truthy_row created_user with
      | None =>
          raise (HTTPException HTTP_500_INTERNAL_SERVER_ERROR
                   "Failed to create user" [])
      | Some created_user => ret created_user
      end
  end.

Definition login_rejected : exc :=
  HTTPException HTTP_401_UNAUTHORIZED "Incorrect email or password"
    [("WWW-Authenticate", "Bearer")].

(** The [data] dictionary [login] signs. *)
Definition token_data (sub user_email user_role : pyval) : dict :=
  <["sub" := sub]> (<["email" := user_email]> {["role" := user_role]}).

Definition login (form_data : LoginForm) : M TokenResponse :=
  user <-
    fetch (GetUserByEmail (username form_data))
      (get_user_by_email lib (username form_data)) ;;
  match truthy_row user with
  | None => raise login_rejected
  | Some user =>
      password_hash <- lift (subscript user "password_hash") ;;
      verified <- lift (verify_password (form_password form_data) password_hash) ;;
      if negb verified then raise login_rejected
      else if negb (is_active user) then
        raise (HTTPException HTTP_403_FORBIDDEN "User account is inactive" [])
      else
        raw_id <- lift (subscript user "id") ;;
        id <- lift (parse_uuid lib raw_id) ;;
        write (UpdateUserLastLogin id) (update_user_last_login lib id) ;;
        let access_token_expires :=
          timedelta_hours (ACCESS_TOKEN_EXPIRE_HOURS cfg) in
        sub <- lift (subscript user "id") ;;
        user_email <- lift (subscript user "email") ;;
        user_role <- lift (subscript user "role") ;;
        let data := token_data sub user_email user_role in
        access_token <- create_access_token data (Some access_token_expires) ;;
        ret {| access_token := access_token;
               token_type := "bearer";
               expires_in := ACCESS_TOKEN_EXPIRE_HOURS cfg * 3600;
               user := user |}
  end.

Definition get_current_user (current_user : dict) : dict := current_user.

(** [get_current_active_user], a plain function of the resolved user. *)
Definition get_current_active_user (current_user : dict) : result dict :=
  if negb (is_active current_user) then
    Raises (HTTPException HTTP_403_FORBIDDEN "Inactive user" [])
  else Returns current_user.

End Router.

Arguments call : clear implicits.
Arguments Libs : clear implicits.
Arguments World : clear implicits.
Arguments M : clear implicits.

Notation "x <- c1 ;; c2" := (bind c1 (fun x => c2))
  (at level 100, c1 at next level, right associativity) : auth_scope.
Notation "c1 ;; c2" := (bind c1 (fun _ => c2))
  (at level 100, right associativity) : auth_scope.

(** *** Stand-ins on which the router can be run

    A user table found by email or id, a hashing context and a token
    format that can be computed with, and identifiers that parse when they
    have the length of a canonical UUID. *)

Record Users := {
  users : list dict;
  salt : Z;
  clock : Z;
}.

Definition find_by (k : string) (v : pyval) (s : Users) : option dict :=
  List.find (fun u => bool_decide (u !! k = Some v)) (users s).

Definition toy_hash (salt : Z) (password : string) : string :=
  "$2b$" +:+ decimal salt +:+ "$" +:+ password.

(** The text after the second dollar sign of a toy hash. *)
Fixpoint after_dollars (n : nat) (s : string) : string :=
  match n, s with
  | O, _ => s
  | _, EmptyString => EmptyString
  | Datatypes.S n', String c s' =>
      if Ascii.eqb c "$" then after_dollars n' s' else after_dollars n s'
  end.

Definition toy_verify (plain : string) (hashed : pyval) : result bool :=
  match hashed with
  | PStr h => Returns (String.eqb (after_dollars 3 h) plain)
  | _ => Returns false
  end.

Fixpoint strip_prefix (p s : string) : option string :=
  match p, s with
  | EmptyString, _ => Some s
  | String a p', String b s' =>
      if Ascii.eqb a b then strip_prefix p' s' else None
  | String _ _, EmptyString => None
  end.

Definition toy_encode (claims : dict) (key alg : string) : result string :=
  Returns (key +:+ "." +:+ py_str (dict_get claims "sub")).

Definition toy_decode (token key : string) (algs : list string) (s : Users)
  : result dict :=
  match strip_prefix (key +:+ ".") token with
  | Some "" => Returns ∅
  | Some sub => Returns {["sub" := PStr sub]}
  | None => Raises (JWTError "Signature verification failed.")
  end.

Definition toy_uuid (x : pyval) : result string :=
  match x with
  | PStr s =>
      if Nat.eqb (String.length s) 36 then Returns s
      else Raises (ValueError "badly formed hexadecimal UUID string")
  | _ => Raises (Exception "'NoneType' object has no attribute 'replace'")
  end.

Definition toy_create_user (user_data : dict) (s : Users)
  : result (option dict) * Users :=
  let row := <["id" := PStr "00000000-0000-4000-8000-000000000002"]> user_data in
  (Returns (Some row),
   {| users := (users s ++ [row])%list; salt := salt s; clock := clock s |}).

Definition toy_update_last_login (id : string) (s : Users)
  : result unit * Users :=
  (Returns tt,
   {| users :=
        (fun u =>
           if bool_decide (u !! "id" = Some (PStr id))
           then <["last_login" := PInt (clock s)]> u else u) <$> users s;
      salt := salt s; clock := clock s + 1 |}).

Definition toy_libs : Libs string Users :=
  {| pwd_hash := fun p s =>
       (Returns (toy_hash (salt s) p),
        {| users := users s; salt := salt s + 1; clock := clock s |});
     pwd_verify := toy_verify;
     jwt_encode := toy_encode;
     jwt_decode := toy_decode;
     parse_uuid := toy_uuid;
     now_utc := clock;
     get_user := fun id s => Returns (find_by "id" (PStr id) s);
     get_user_by_email := fun e s => Returns (find_by "email" (PStr e) s);
     create_user := toy_create_user;
     update_user_last_login := toy_update_last_login |}.

Definition toy_config : Config :=
  {| SECRET_KEY := "your-secret-key-change-in-production";
     ALGORITHM := "HS256";
     ACCESS_TOKEN_EXPIRE_HOURS := 24 |}.

Definition nurse_id : string := "00000000-0000-4000-8000-000000000001".

Definition nurse (active : bool) : dict :=
  list_to_map
    [("id", PStr nurse_id); ("email", PStr "nurse@hospital.com");
     ("password_hash", PStr (toy_hash 7 "nurse123"));
     ("role", PStr "nurse"); ("first_name", PStr "Test");
     ("last_name", PStr "Nurse"); ("is_active", PBool active)].

Definition ward (active : bool) : Users :=
  {| users := [nurse active]; salt := 8; clock := 1000 |}.

Definition begin (s : Users) : World string Users :=
  {| store := s; calls := [] |}.

Definition nurse_form (password : string) : LoginForm :=
  {| username := "nurse@hospital.com"; form_password := password |}.

(** The token the stand-in signs for the nurse. *)
Definition nurse_token : string :=
  "your-secret-key-change-in-production." +:+ nurse_id.

(** A new user and one whose email is taken. *)
Definition newcomer : UserCreate :=
  {| email := "new@hospital.com"; password := "s3cret"; role := "nurse";
     first_name := "New"; last_name := "Nurse" |}.

Definition returning : UserCreate :=
  {| email := "nurse@hospital.com"; password := "s3cret"; role := "nurse";
     first_name := "Test"; last_name := "Nurse" |}.

(** The nurse logging in, and the answer. *)
Definition nurse_login :=
  login toy_config toy_libs (nurse_form "nurse123") (begin (ward true)).

Definition nurse_response : TokenResponse :=
  {| access_token := nurse_token; token_type := "bearer";
     expires_in := 86400; user := nurse true |}.

End Auth.

(** * Vocabulary of the properties *)

(** ** The priority table, as the specification words it *)

Definition priority_table (call_outcome : string) : FlagPriority :=
  if decide (call_outcome = "declined") then HIGH
  else if decide (call_outcome = "no_answer") then MEDIUM
  else if decide (call_outcome = "voicemail") then MEDIUM
  else if decide (call_outcome = "callback_requested") then HIGH
  else if decide (call_outcome = "invalid_number") then URGENT
  else if decide (call_outcome = "failed") then HIGH
  else MEDIUM.

Section Vocabulary.
Context `{DT : DateTimeLib} {S : Type} (svc : Services S).

(** Every event that [m] records satisfies [P]; the trace only grows. *)
Definition emits {A} (P : event -> bool) (m : M S A) : Prop :=
  forall w, exists new,
    trace (m w).2 = (trace w ++ new)%list /\ forallb P new = true.

(** [m] returns normally from every world. *)
Definition never_raises {A} (m : M S A) : Prop :=
  forall w, raises (m w).1 = false.

(** The correlation payload carries no call-attempt identifier. *)
Definition lacks_call_log_id (payload : ElevenLabsWebhookPayload) : Prop :=
  match metadata payload with
  | Some md => md !! "call_log_id" = None
  | None => True
  end.

(** What step 1 records when the row is found and the write answers a row. *)
Definition step1_events (referral_id : pyval) (new_datetime : datetime)
    (existing : dict) : list event :=
  [EvGetReferral referral_id;
   EvRescheduleReferral referral_id new_datetime reschedule_reason;
   EvPrint ("✅ Referral " +:+ py_str referral_id
            +:+ " rescheduled: Status changed from "
            +:+ py_str (dict_get existing "status") +:+ " to SCHEDULED");
   EvPrint ("   New appointment: " +:+ datetime_str new_datetime)].

Definition after_step1 (w : World S) (referral_id : pyval)
    (new_datetime : datetime) (existing : dict) (s1 : S) : World S :=
  {| store := s1; tasks := tasks w;
     trace := (trace w ++ step1_events referral_id new_datetime existing)%list |}.

(** The world once the call-attempt update has been written. *)
Definition after_update (w : World S) (id : pyval)
    (payload : ElevenLabsWebhookPayload) (s1 : S) : World S :=
  {| store := s1; tasks := tasks w;
     trace :=
       (trace w
        ++ [EvUpdateCallLog id
              (call_update_for payload (utcnow_isoformat svc (store w)))])%list
  |}.

(** The reading of the status default as a failure: an unmapped status
    would be stored as failed. *)
Definition unmapped_status_is_stored_as_failed : Prop :=
  forall payload : ElevenLabsWebhookPayload,
    status payload <> "completed" ->
    status payload <> "failed" ->
    status payload <> "no_answer" ->
    mapped_status payload = FAILED.

(** The reading of step 1 as failure-fatal: whenever it fails, by raising
    or by answering no row, the orchestrator raises, and calls neither the
    calendar nor the mailer. *)
Definition failed_step1_surfaces_error (referral_id : pyval)
    (new_datetime : datetime) (w : World S) : Prop :=
  forall existing r s1,
    get_referral svc referral_id (store w) = Ok (Some existing) ->
    dict_truthy existing = true ->
    reschedule_referral svc referral_id new_datetime reschedule_reason (store w)
    = (r, s1) ->
    match r with Ok row => truthy_row row = None | Raise _ => True end ->
    let run := handle_successful_reschedule svc referral_id new_datetime w in
    raises run.1 = true
    /\ existsb is_calendar_call (trace run.2) = false
    /\ existsb is_email_call (trace run.2) = false.

End Vocabulary.

(** * Vocabulary of the further properties *)


(** The statuses a processed call attempt can carry. *)
Definition terminal_status (st : CallStatus) : bool :=
  match st with
  | COMPLETED | FAILED | NO_ANSWER => true
  | PENDING | IN_PROGRESS => false
  end.

(** The provider's word for a resolution. *)
Definition provider_word (r : CallResolution) : string :=
  match r with
  | RESCHEDULED => "rescheduled"
  | DECLINED => "declined"
  | LEFT_VOICEMAIL => "voicemail"
  | CALLBACK_REQUESTED => "callback_requested"
  | RES_NO_ANSWER => "no_answer"
  end.

Section FurtherVocabulary.
Context `{DT : DateTimeLib}.

(** [payload] with its outcome replaced. *)
Definition with_outcome (o : option string)
    (payload : ElevenLabsWebhookPayload) : ElevenLabsWebhookPayload :=
  {| call_id := call_id payload; status := status payload; outcome := o;
     new_appointment_time := new_appointment_time payload;
     transcript := transcript payload;
     duration_seconds := duration_seconds payload;
     metadata := metadata payload |}.

Definition is_add_task (e : event) : bool :=
  match e with EvAddTask _ _ => true | _ => false end.

(** Every call-attempt update among the events writes a terminal status. *)
Definition writes_terminal_status (e : event) : bool :=
  match e with
  | EvUpdateCallLog _ call_update => terminal_status (cu_status call_update)
  | _ => true
  end.

(** The keyword arguments of the rescheduled email for a referral row. *)
Definition rescheduled_email_for (referral : dict) (new_datetime : datetime)
    (old_datetime : option datetime) : RescheduledEmail :=
  {| to_email := dict_get referral "patient_email";
     patient_name := dict_get referral "patient_name";
     mail_new_datetime := new_datetime;
     specialist_type := dict_get referral "specialist_type";
     mail_old_datetime := old_datetime;
     mail_location := PNone;
     mail_reason := reschedule_reason;
     attach_calendar := true |}.

(** The log entry written for a sent email. *)
Definition email_log_for (referral_id : pyval) (referral email_result : dict)
    (sent_at : string) : EmailLog :=
  {| log_referral_id := py_str referral_id;
     log_email_type := APPOINTMENT_RESCHEDULED;
     log_recipient_email := dict_get referral "patient_email";
     log_subject :=
       "Appointment Rescheduled - "
       +:+ py_str (dict_get referral "specialist_type");
     log_status := SENT;
     log_sendgrid_message_id := dict_get email_result "message_id";
     log_calendar_invite_attached := true;
     log_sent_at := sent_at |}.

End FurtherVocabulary.

(** * Properties *)

(** ** Strings *)

Lemma append_cons (c : ascii) (a b : string) :
  String c a +:+ b = String c (a +:+ b).
Proof. reflexivity. Qed.

Lemma length_append (a b : string) :
  String.length (a +:+ b) = (String.length a + String.length b)%nat.
Proof.
  induction a as [|c a IH]; [reflexivity|].
  rewrite append_cons; simpl; now rewrite IH.
Qed.

Lemma length_slice_to (n : nat) (s : string) :
  String.length (slice_to n s) = Nat.min n (String.length s).
Proof.
  revert s; induction n as [|n IH]; intros [|c s]; simpl; try reflexivity.
  now rewrite IH.
Qed.

Lemma prefix_slice_to (n : nat) (s : string) :
  String.prefix (slice_to n s) s = true.
Proof.
  revert s; induction n as [|n IH]; intros [|c s]; simpl; try reflexivity.
  destruct (ascii_dec c c) as [_|Hne]; [apply IH | now destruct Hne].
Qed.

(** Replaces the length of every string literal of the goal by its value. *)
Ltac literal_lengths :=
  repeat match goal with
  | |- context [String.length (String ?c ?s)] =>
      let n := eval vm_compute in (String.length (String c s)) in
      change (String.length (String c s)) with n
  | |- context [String.length EmptyString] =>
      change (String.length EmptyString) with O
  end.

Lemma append_assoc (a b c : string) : (a +:+ b) +:+ c = a +:+ (b +:+ c).
Proof.
  induction a as [|x a IH]; [reflexivity|].
  rewrite !append_cons; now f_equal.
Qed.

Lemma existsb_none {A} (P : A -> bool) (l : list A) :
  forallb (fun x => negb (P x)) l = true -> existsb P l = false.
Proof.
  induction l as [|x l IH]; simpl; [reflexivity|].
  intros [Hx Hl]%andb_true_iff. apply negb_true_iff in Hx.
  now rewrite Hx, IH.
Qed.

(** ** What a run adds to the trace *)

Section Traces.
Context `{DT : DateTimeLib} {S : Type}.

Lemma emits_ret {A} P (a : A) : emits P (@ret _ S A a).
Proof. intros w; exists []; simpl; now rewrite app_nil_r. Qed.

Lemma emits_raise {A} P e : emits P (@raise _ S A e).
Proof. intros w; exists []; simpl; now rewrite app_nil_r. Qed.

Lemma emits_lift {A} P (r : res A) : emits P (@lift _ S A r).
Proof. intros w; exists []; simpl; now rewrite app_nil_r. Qed.

Lemma emits_read {A} P (f : S -> A) : emits P (read f).
Proof. intros w; exists []; simpl; now rewrite app_nil_r. Qed.

Lemma emits_emit (P : event -> bool) e : P e = true -> emits P (@emit _ S e).
Proof. intros He w; exists [e]; simpl; now rewrite He. Qed.

Lemma emits_print (P : event -> bool) line :
  P (EvPrint line) = true -> emits P (@print _ S line).
Proof. apply emits_emit. Qed.

Lemma emits_call {A} (P : event -> bool) e (op : S -> res A * S) :
  P e = true -> emits P (call e op).
Proof.
  intros He w; exists [e]; unfold call.
  destruct (op (store w)); simpl; now rewrite He.
Qed.

Lemma emits_query {A} (P : event -> bool) e (op : S -> res A) :
  P e = true -> emits P (query e op).
Proof. intros He w; exists [e]; simpl; now rewrite He. Qed.

Lemma emits_bind {A B} P (m : M S A) (k : A -> M S B) :
  emits P m -> (forall a, emits P (k a)) -> emits P (bind m k).
Proof.
  intros Hm Hk w; unfold bind.
  destruct (Hm w) as (n1 & E1 & F1).
  destruct (m w) as [[a|e] w1]; simpl in *.
  - destruct (Hk a w1) as (n2 & E2 & F2).
    exists (n1 ++ n2)%list; split.
    + now rewrite E2, E1, app_assoc.
    + now rewrite forallb_app, F1, F2.
  - now exists n1.
Qed.

Lemma emits_try_except {A} P (body : M S A) (handler : exn -> M S A) :
  emits P body -> (forall e, emits P (handler e)) ->
  emits P (try_except body handler).
Proof.
  intros Hm Hk w; unfold try_except.
  destruct (Hm w) as (n1 & E1 & F1).
  destruct (body w) as [[a|e] w1]; simpl in *.
  - now exists n1.
  - destruct (Hk e w1) as (n2 & E2 & F2).
    exists (n1 ++ n2)%list; split.
    + now rewrite E2, E1, app_assoc.
    + now rewrite forallb_app, F1, F2.
Qed.

Lemma emits_weaken {A} (P Q : event -> bool) (m : M S A) :
  (forall e, P e = true -> Q e = true) -> emits P m -> emits Q m.
Proof.
  intros HPQ Hm w. destruct (Hm w) as (new & E & F).
  exists new; split; [exact E|].
  rewrite forallb_forall in *. auto.
Qed.

End Traces.

(** Walks down a computation, leaving the side conditions on events to
    [reflexivity]. *)
Ltac emits_step :=
  match goal with
  | |- emits _ (bind _ _) => apply emits_bind; [|intros ?]
  | |- emits _ (try_except _ _) => apply emits_try_except; [|intros ?]
  | |- emits _ (ret _) => apply emits_ret
  | |- emits _ (raise _) => apply emits_raise
  | |- emits _ (lift _) => apply emits_lift
  | |- emits _ (read _) => apply emits_read
  | |- emits _ (print _) => apply emits_print; reflexivity
  | |- emits _ (emit _) => apply emits_emit; reflexivity
  | |- emits _ (call _ _) => apply emits_call; reflexivity
  | |- emits _ (query _ _) => apply emits_query; reflexivity
  | |- emits _ (match ?x with _ => _ end) => destruct x
  | |- emits _ (let _ := _ in _) => cbv zeta
  end.

(** ** Follow-up Flagger *)

Lemma priority_for_table (call_outcome : string) :
  priority_for call_outcome = priority_table call_outcome.
Proof.
  unfold priority_for, priority_table, priority_map.
  repeat case_decide; subst; try reflexivity.
  simpl. now rewrite !lookup_insert_ne, lookup_empty by congruence.
Qed.

Section Flagger.
Context `{DT : DateTimeLib} {S : Type} (svc : Services S).

(** The flagger asks the store for exactly one flag, the one
    [flag_data_for] builds, and otherwise only prints. *)
Lemma create_follow_up_flag_trace referral_id call_outcome transcript
    (w : World S) :
  exists rest,
    trace (create_follow_up_flag svc referral_id call_outcome transcript w).2
    = (trace w
       ++ EvCreateFlag (flag_data_for referral_id call_outcome transcript)
          :: rest)%list
    /\ forallb is_print rest = true.
Proof.
  unfold create_follow_up_flag, bind, call, print, emit.
  destruct (create_flag svc _ (store w)) as [[[]|e] s']; simpl.
  - eexists [_]. rewrite <- app_assoc. split; reflexivity.
  - exists []. split; reflexivity.
Qed.

(** C8: the follow-up priority is the table declined -> high, no_answer ->
    medium, voicemail -> medium, callback_requested -> high, invalid_number
    -> urgent, failed -> high, anything else -> medium, and the flag handed
    to the store carries that priority. *)
Theorem follow_up_priority_is_the_table referral_id call_outcome transcript
    (w : World S) :
  priority_for call_outcome = priority_table call_outcome
  /\ exists flag rest,
       trace (create_follow_up_flag svc referral_id call_outcome transcript w).2
       = (trace w ++ EvCreateFlag flag :: rest)%list
       /\ flag_priority flag = priority_table call_outcome
       /\ forallb is_print rest = true.
Proof.
  split; [apply priority_for_table|].
  destruct (create_follow_up_flag_trace referral_id call_outcome transcript w)
    as (rest & Htrace & Hrest).
  exists (flag_data_for referral_id call_outcome transcript), rest.
  repeat split; [exact Htrace | apply priority_for_table | exact Hrest].
Qed.

(** C9: for a transcript [t], the flag handed to the store has the title
    "Follow-up needed: " followed by the outcome with underscores turned to
    spaces and title-cased, and a description that embeds [t[:500]], the
    first min(500, len t) characters of the transcript, so its length
    exceeds that of the transcript-less description by at most 522. *)
Theorem follow_up_flag_embeds_bounded_excerpt referral_id call_outcome
    (t : string) (w : World S) :
  let flag := flag_data_for referral_id call_outcome (Some t) in
  (exists rest,
     trace (create_follow_up_flag svc referral_id call_outcome (Some t) w).2
     = (trace w ++ EvCreateFlag flag :: rest)%list
     /\ forallb is_print rest = true)
  /\ flag_title flag
     = "Follow-up needed: " +:+ title (replace "_" " " call_outcome)
  /\ flag_description flag
     = "Automated call outcome: " +:+ call_outcome +:+ newline
       +:+ "Patient needs manual follow-up to reschedule missed referral."
       +:+ (if String.eqb t "" then ""
            else newline +:+ newline +:+ "Call transcript:" +:+ newline
                 +:+ slice_to 500 t +:+ "...")
  /\ String.prefix (slice_to 500 t) t = true
  /\ String.length (slice_to 500 t) = Nat.min 500 (String.length t)
  /\ (String.length (flag_description flag)
      <= String.length
           (flag_description (flag_data_for referral_id call_outcome None))
         + 522)%nat.
Proof.
  intros flag.
  assert (Hdesc : flag_description flag
     = "Automated call outcome: " +:+ call_outcome +:+ newline
       +:+ "Patient needs manual follow-up to reschedule missed referral."
       +:+ (if String.eqb t "" then ""
            else newline +:+ newline +:+ "Call transcript:" +:+ newline
                 +:+ slice_to 500 t +:+ "...")).
  { unfold flag, flag_data_for, description_parts, str_truthy; simpl.
    destruct (String.eqb t ""); simpl.
    - reflexivity.
    - now rewrite !append_assoc. }
  split; [apply create_follow_up_flag_trace|].
  split; [reflexivity|].
  split; [exact Hdesc|].
  split; [apply prefix_slice_to|].
  split; [apply length_slice_to|].
  rewrite Hdesc.
  change (flag_description (flag_data_for referral_id call_outcome None))
    with ("Automated call outcome: " +:+ call_outcome +:+ newline
          +:+ "Patient needs manual follow-up to reschedule missed referral.").
  unfold newline.
  destruct (String.eqb t "");
    rewrite ?length_append, ?length_slice_to; literal_lengths; lia.
Qed.

End Flagger.

(** ** Outcome Mapper *)

Lemma status_map_unmapped (s : string) :
  s <> "completed" -> s <> "failed" -> s <> "no_answer" ->
  status_map !! s = None.
Proof.
  intros H1 H2 H3. unfold status_map; simpl.
  now rewrite !lookup_insert_ne, lookup_empty by congruence.
Qed.

Lemma resolution_map_rescheduled (o : string) :
  resolution_map !! o = Some RESCHEDULED <-> o = "rescheduled".
Proof.
  unfold resolution_map; simpl. split; [|intros ->; reflexivity].
  intros H.
  repeat (rewrite lookup_insert in H; case_decide;
          [first [congruence | discriminate]|]).
  now rewrite lookup_empty in H.
Qed.

Section Mapper.
Context `{DT : DateTimeLib}.

Lemma mapped_resolution_rescheduled (payload : ElevenLabsWebhookPayload) :
  mapped_resolution payload = Some RESCHEDULED
  <-> outcome payload = Some "rescheduled".
Proof.
  unfold mapped_resolution, str_truthy.
  destruct (outcome payload) as [o|]; [|split; discriminate].
  destruct (String.eqb_spec o "") as [->|_]; simpl.
  - split; discriminate.
  - rewrite resolution_map_rescheduled. split; congruence.
Qed.

(** The test of the code, on the outcome string, is the test on the mapped
    resolution. *)
Lemma reschedule_time_spec (payload : ElevenLabsWebhookPayload) dt :
  reschedule_time payload = Some dt
  <-> mapped_resolution payload = Some RESCHEDULED
      /\ new_appointment_time payload = Some dt.
Proof.
  rewrite mapped_resolution_rescheduled. unfold reschedule_time.
  destruct (outcome payload) as [o|]; [|split; [|intros []]; discriminate].
  destruct (String.eqb_spec o "rescheduled") as [->|Hne].
  - tauto.
  - split; [discriminate | intros [[=] _]; contradiction].
Qed.

Lemma reschedule_time_none (payload : ElevenLabsWebhookPayload) :
  reschedule_time payload = None
  <-> ~ (mapped_resolution payload = Some RESCHEDULED
         /\ new_appointment_time payload <> None).
Proof.
  destruct (reschedule_time payload) as [dt|] eqn:E.
  - apply reschedule_time_spec in E as [Hr Ht].
    split; [discriminate|]. intros H; exfalso; apply H.
    split; [exact Hr | congruence].
  - split; [|reflexivity]. intros _ [Hr Ht].
    destruct (new_appointment_time payload) as [dt|] eqn:Et; [|congruence].
    assert (reschedule_time payload = Some dt) as E'
      by (apply reschedule_time_spec; now rewrite Et).
    congruence.
Qed.

End Mapper.

(** ** Reschedule Orchestrator *)

Section Totality.
Context `{DT : DateTimeLib} {S : Type}.

Lemma never_raises_ret {A} (a : A) : never_raises (@ret _ S A a).
Proof. now intros w. Qed.

Lemma never_raises_emit e : never_raises (@emit _ S e).
Proof. now intros w. Qed.

Lemma never_raises_bind {A B} (m : M S A) (k : A -> M S B) :
  never_raises m -> (forall a, never_raises (k a)) -> never_raises (bind m k).
Proof.
  intros Hm Hk w; unfold bind. specialize (Hm w).
  destruct (m w) as [[a|e] w1]; simpl in *; [apply Hk | discriminate].
Qed.

(** A handler that returns normally makes the whole [try] return
    normally, whatever its body does. *)
Lemma never_raises_try_except {A} (body : M S A) (handler : exn -> M S A) :
  (forall e, never_raises (handler e)) -> never_raises (try_except body handler).
Proof.
  intros Hk w; unfold try_except.
  destruct (body w) as [[a|e] w1]; simpl; [reflexivity | apply Hk].
Qed.

Lemma never_raises_unit (m : M S unit) w :
  never_raises m -> (m w).1 = Ok tt.
Proof. intros H. specialize (H w). now destruct (m w) as [[[]|e] w']. Qed.

(** A recorded call followed by computations that record only [P]-events. *)
Lemma query_first {A B} (P : event -> bool) e (op : S -> res A)
    (k : A -> M S B) (w : World S) :
  (forall a, emits P (k a)) ->
  exists rest,
    trace (bind (query e op) k w).2 = (trace w ++ e :: rest)%list
    /\ forallb P rest = true.
Proof.
  intros Hk. unfold bind, query.
  destruct (op (store w)) as [a|ex]; simpl.
  - destruct (Hk a {| store := store w; tasks := tasks w;
                      trace := (trace w ++ [e])%list |}) as (rest & E & F).
    exists rest. simpl in E. now rewrite E, <- app_assoc.
  - now exists [].
Qed.

End Totality.

Section Orchestrator.
Context `{DT : DateTimeLib} {S : Type} (svc : Services S).

Lemma calendar_step_never_raises existing referral new_datetime :
  never_raises (calendar_step svc existing referral new_datetime).
Proof.
  unfold calendar_step.
  destruct (calendar_service svc); [|apply never_raises_ret].
  destruct (truthy _); [|apply never_raises_ret].
  apply never_raises_try_except. intros e. apply never_raises_emit.
Qed.

Lemma email_step_never_raises referral_id referral new_datetime old_datetime :
  never_raises (email_step svc referral_id referral new_datetime old_datetime).
Proof.
  unfold email_step.
  destruct (truthy _); [|apply never_raises_ret].
  apply never_raises_try_except. intros e. apply never_raises_emit.
Qed.

Lemma calendar_step_emits existing referral new_datetime :
  emits (fun e => is_calendar_call e || is_print e)
    (calendar_step svc existing referral new_datetime).
Proof. unfold calendar_step. repeat emits_step. Qed.

Lemma email_step_emits referral_id referral new_datetime old_datetime :
  emits (fun e => negb (is_row_write e) && negb (is_calendar_call e))
    (email_step svc referral_id referral new_datetime old_datetime).
Proof. unfold email_step. repeat emits_step. Qed.

Lemma handle_successful_reschedule_emits referral_id new_datetime :
  emits (fun e => is_reschedule_call e || is_print e)
    (handle_successful_reschedule svc referral_id new_datetime).
Proof.
  unfold handle_successful_reschedule, calendar_step, email_step.
  repeat emits_step.
Qed.

Lemma handle_successful_reschedule_first referral_id new_datetime
    (w : World S) :
  exists rest,
    trace (handle_successful_reschedule svc referral_id new_datetime w).2
    = (trace w ++ EvGetReferral referral_id :: rest)%list
    /\ forallb (fun e => is_reschedule_call e || is_print e) rest = true.
Proof.
  unfold handle_successful_reschedule. apply query_first. intros existing.
  unfold calendar_step, email_step. repeat emits_step.
Qed.

(** The calendar is only called with the module present and a truthy
    [calendar_event_id] on the row. *)
Lemma calendar_step_skipped existing referral new_datetime (w : World S) :
  calendar_service svc = None
  \/ truthy (dict_get existing "calendar_event_id") = false ->
  calendar_step svc existing referral new_datetime w = (Ok tt, w).
Proof.
  unfold calendar_step. intros [-> | H]; [reflexivity|].
  rewrite H. now destruct (calendar_service svc).
Qed.

Lemma truthy_dict_get (d : dict) k :
  truthy (dict_get d k) = true -> d !! k = Some (dict_get d k).
Proof. unfold dict_get. now destruct (d !! k). Qed.

Lemma handle_successful_reschedule_after_step1 referral_id new_datetime
    (w : World S) existing referral s1 :
  get_referral svc referral_id (store w) = Ok (Some existing) ->
  dict_truthy existing = true ->
  reschedule_referral svc referral_id new_datetime reschedule_reason (store w)
  = (Ok (Some referral), s1) ->
  dict_truthy referral = true ->
  handle_successful_reschedule svc referral_id new_datetime w
  = (calendar_step svc existing referral new_datetime ;;
     email_step svc referral_id referral new_datetime
       (old_datetime_of existing) ;;
     print (reschedule_done referral_id))
    (after_step1 w referral_id new_datetime existing s1).
Proof.
  intros Hget Hex Hres Href.
  unfold handle_successful_reschedule, after_step1, step1_events.
  unfold bind at 1, query. rewrite Hget. unfold truthy_row at 1. rewrite Hex.
  unfold bind at 1, call; simpl. rewrite Hres.
  unfold truthy_row at 1. rewrite Href.
  unfold bind at 1, print at 1, emit at 1; simpl.
  unfold bind at 1, print at 1, emit at 1; simpl.
  now rewrite <- !app_assoc.
Qed.

(** C6: once step 1 has updated the referral, the calendar step cannot
    undo it, cannot keep the email step from running and cannot make the
    orchestrator raise: the orchestrator returns normally, the email step
    runs from the world the calendar step leaves, nothing recorded after
    step 1 writes a call-attempt, referral or flag row, and a calendar
    update is recorded only if the calendar module is present and the row
    has a truthy calendar_event_id.  When the update raises, the step
    records the call and a warning and nothing else. *)
Theorem calendar_failure_is_contained referral_id new_datetime
    (w : World S) existing referral s1 :
  get_referral svc referral_id (store w) = Ok (Some existing) ->
  dict_truthy existing = true ->
  reschedule_referral svc referral_id new_datetime reschedule_reason (store w)
  = (Ok (Some referral), s1) ->
  dict_truthy referral = true ->
  let w1 := after_step1 w referral_id new_datetime existing s1 in
  let w2 := (calendar_step svc existing referral new_datetime w1).2 in
  (handle_successful_reschedule svc referral_id new_datetime w).1 = Ok tt
  /\ handle_successful_reschedule svc referral_id new_datetime w
     = (email_step svc referral_id referral new_datetime
          (old_datetime_of existing) ;;
        print (reschedule_done referral_id)) w2
  /\ (exists calendar_events,
        trace w2 = (trace w1 ++ calendar_events)%list
        /\ forallb (fun e => is_calendar_call e || is_print e) calendar_events
           = true
        /\ (existsb is_calendar_call calendar_events = true ->
            is_Some (calendar_service svc)
            /\ truthy (dict_get existing "calendar_event_id") = true))
  /\ (exists after,
        trace (handle_successful_reschedule svc referral_id new_datetime w).2
        = (trace w1 ++ after)%list
        /\ existsb is_row_write after = false)
  /\ (forall update_referral_event e s2,
        calendar_service svc = Some update_referral_event ->
        truthy (dict_get existing "calendar_event_id") = true ->
        update_referral_event
          (calendar_update_for (dict_get existing "calendar_event_id")
             referral new_datetime) s1
        = (Raise e, s2) ->
        w2 = {| store := s2; tasks := tasks w;
                trace :=
                  (trace w1
                   ++ [EvCalendarUpdate
                         (calendar_update_for
                            (dict_get existing "calendar_event_id")
                            referral new_datetime);
                       EvPrint ("⚠️  Failed to update Google Calendar: "
                                +:+ exn_str e)])%list |}).
Proof.
  intros Hget Hex Hres Href w1 w2.
  pose proof (handle_successful_reschedule_after_step1 _ _ _ _ _ _
                Hget Hex Hres Href) as Hrun.
  fold w1 in Hrun.
  pose proof (never_raises_unit _ w1
                (calendar_step_never_raises existing referral new_datetime))
    as Hcal.
  assert (Hemail : handle_successful_reschedule svc referral_id new_datetime w
     = (email_step svc referral_id referral new_datetime
          (old_datetime_of existing) ;;
        print (reschedule_done referral_id)) w2).
  { rewrite Hrun. unfold bind at 1. subst w2.
    destruct (calendar_step svc existing referral new_datetime w1)
      as [r w']; simpl in *. now rewrite Hcal. }
  split; [|split; [exact Hemail|split; [|split]]].
  - rewrite Hemail. apply never_raises_unit.
    apply never_raises_bind; [apply email_step_never_raises|].
    intros _. apply never_raises_emit.
  - destruct (calendar_step_emits existing referral new_datetime w1)
      as (new & E & F).
    exists new. fold w2 in E. split; [exact E|]. split; [exact F|].
    intros Hcall.
    assert (Hnew : new <> []) by (intros ->; discriminate).
    assert (Hskip : calendar_service svc = None
                    \/ truthy (dict_get existing "calendar_event_id") = false
                    -> False).
    { intros Hs. apply Hnew. subst w2.
      rewrite calendar_step_skipped in E by exact Hs.
      assert (E' : (trace w1 ++ [])%list = (trace w1 ++ new)%list)
        by (rewrite app_nil_r; exact E).
      now apply app_inv_head in E'. }
    split.
    + destruct (calendar_service svc); [eauto|]. exfalso; auto.
    + destruct (truthy (dict_get existing "calendar_event_id"));
        [reflexivity|]. exfalso; auto.
  - rewrite Hrun.
    assert (Hem : emits (fun e => negb (is_row_write e))
              (calendar_step svc existing referral new_datetime ;;
               email_step svc referral_id referral new_datetime
                 (old_datetime_of existing) ;;
               print (reschedule_done referral_id))).
    { apply emits_bind;
        [eapply emits_weaken; [|apply calendar_step_emits];
         now intros []|].
      intros _. apply emits_bind;
        [eapply emits_weaken; [|apply email_step_emits];
         now intros []|].
      intros _. now apply emits_print. }
    destruct (Hem w1) as (after & E & F). exists after. split; [exact E|].
    now apply existsb_none.
  - intros cal e s2 Hsvc Hid Hfail. subst w2.
    unfold calendar_step. rewrite Hsvc, Hid.
    unfold try_except, bind at 1, lift, subscript.
    rewrite (truthy_dict_get _ _ Hid).
    unfold bind at 1, call; simpl. rewrite Hfail. simpl.
    now rewrite <- app_assoc.
Qed.

(** C7, as the code has it: when step 1 fails, by raising or by answering
    no row, the orchestrator stops there.  Neither the calendar nor the
    mailer is called; an exception of the store propagates, while a missing
    row is printed and the orchestrator returns normally. *)
Theorem failed_referral_update_aborts referral_id new_datetime
    (w : World S) existing r s1 :
  get_referral svc referral_id (store w) = Ok (Some existing) ->
  dict_truthy existing = true ->
  reschedule_referral svc referral_id new_datetime reschedule_reason (store w)
  = (r, s1) ->
  match r with Ok row => truthy_row row = None | Raise _ => True end ->
  handle_successful_reschedule svc referral_id new_datetime w
  = match r with
    | Raise e =>
        (Raise e,
         {| store := s1; tasks := tasks w;
            trace :=
              (trace w
               ++ [EvGetReferral referral_id;
                   EvRescheduleReferral referral_id new_datetime
                     reschedule_reason])%list |})
    | Ok _ =>
        (Ok tt,
         {| store := s1; tasks := tasks w;
            trace :=
              (trace w
               ++ [EvGetReferral referral_id;
                   EvRescheduleReferral referral_id new_datetime
                     reschedule_reason;
                   EvPrint ("Failed to reschedule referral "
                            +:+ py_str referral_id)])%list |})
    end.
Proof.
  intros Hget Hex Hres Hfail.
  unfold handle_successful_reschedule.
  unfold bind at 1, query. rewrite Hget. unfold truthy_row at 1. rewrite Hex.
  unfold bind at 1, call; simpl. rewrite Hres.
  destruct r as [row|e]; simpl.
  - rewrite Hfail. unfold print, emit; simpl. now rewrite <- !app_assoc.
  - now rewrite <- !app_assoc.
Qed.

End Orchestrator.

(** ** Outcome Processor *)

Lemma existsb_none_of {A} (P Q : A -> bool) (l : list A) :
  (forall x, P x = true -> Q x = false) ->
  forallb P l = true -> existsb Q l = false.
Proof.
  intros HPQ. induction l as [|x l IH]; simpl; [reflexivity|].
  intros [Hx Hl]%andb_true_iff. now rewrite (HPQ x Hx), IH.
Qed.

Section Processor.
Context `{DT : DateTimeLib} {S : Type} (svc : Services S).

Lemma process_call_outcome_run call_log payload (w : World S) id referral_id
    s1 :
  call_log !! "id" = Some id ->
  call_log !! "referral_id" = Some referral_id ->
  update_call_log svc id
    (call_update_for payload (utcnow_isoformat svc (store w))) (store w)
  = (Ok tt, s1) ->
  process_call_outcome svc call_log payload w
  = match reschedule_time payload with
    | Some new_datetime =>
        reschedule_branch svc referral_id new_datetime
          (after_update svc w id payload s1)
    | None => follow_up_branch svc referral_id payload
                (after_update svc w id payload s1)
    end.
Proof.
  intros Hid Hrid Hupd.
  unfold process_call_outcome, after_update.
  unfold bind at 1, read; simpl.
  unfold bind at 1, lift, subscript. rewrite Hid.
  unfold bind at 1, call; simpl. rewrite Hupd.
  unfold bind at 1. rewrite Hrid.
  now destruct (reschedule_time payload).
Qed.

(** The call log row matters through its [id] and [referral_id] only: no
    other field, its status included, is read. *)
Lemma process_call_outcome_reads_ids_only call_log call_log' payload :
  call_log !! "id" = call_log' !! "id" ->
  call_log !! "referral_id" = call_log' !! "referral_id" ->
  process_call_outcome svc call_log payload
  = process_call_outcome svc call_log' payload.
Proof.
  intros Hid Hrid. unfold process_call_outcome, subscript.
  now rewrite Hid, Hrid.
Qed.

Lemma reschedule_branch_trace referral_id new_datetime (w : World S) :
  exists new,
    trace (reschedule_branch svc referral_id new_datetime w).2
    = (trace w ++ new)%list
    /\ existsb is_reschedule_call new = true
    /\ existsb is_flag_call new = false.
Proof.
  unfold reschedule_branch.
  unfold bind at 1, print at 1, emit at 1.
  unfold bind at 1, print at 1, emit at 1.
  unfold bind at 1, print at 1, emit at 1. cbn [store tasks trace].
  match goal with |- context [handle_successful_reschedule _ _ _ ?w0] =>
    destruct (handle_successful_reschedule_first svc referral_id
                new_datetime w0) as (rest & E & F)
  end.
  rewrite E. cbn [trace]. rewrite <- !app_assoc.
  eexists. split; [reflexivity|]. split.
  - reflexivity.
  - cbn. eapply existsb_none_of; [|exact F]. now intros [].
Qed.

Lemma follow_up_branch_trace referral_id payload (w : World S) :
  exists rest,
    trace (follow_up_branch svc referral_id payload w).2
    = (trace w
       ++ [EvPrint ("📞 Call outcome: " +:+ outcome_or_status payload);
           EvPrint ("   Referral " +:+ py_str referral_id
                    +:+ " remains MISSED - creating follow-up flag");
           EvCreateFlag
             (flag_data_for referral_id (outcome_or_status payload)
                (transcript payload))]
       ++ rest)%list
    /\ forallb is_print rest = true.
Proof.
  unfold follow_up_branch.
  unfold bind at 1, print at 1, emit at 1.
  unfold bind at 1, print at 1, emit at 1. cbn [store tasks trace].
  match goal with |- context [create_follow_up_flag _ ?r ?o ?t ?w0] =>
    destruct (create_follow_up_flag_trace svc r o t w0) as (rest & E & F)
  end.
  rewrite E. cbn [trace]. rewrite <- !app_assoc.
  exists rest. split; [reflexivity | exact F].
Qed.

(** C3: once the call-attempt update is written, the processor runs the
    Reschedule Orchestrator exactly when the mapped resolution is
    rescheduled and a new appointment time is present, and the Follow-up
    Flagger exactly when not; the calls recorded are those of that one
    sub-flow. *)
Theorem branch_follows_resolution_and_time call_log payload (w : World S)
    id referral_id s1 :
  call_log !! "id" = Some id ->
  call_log !! "referral_id" = Some referral_id ->
  update_call_log svc id
    (call_update_for payload (utcnow_isoformat svc (store w))) (store w)
  = (Ok tt, s1) ->
  let w1 := after_update svc w id payload s1 in
  let rescheduled :=
    mapped_resolution payload = Some RESCHEDULED
    /\ new_appointment_time payload <> None in
  (rescheduled ->
     exists new_datetime,
       new_appointment_time payload = Some new_datetime
       /\ process_call_outcome svc call_log payload w
          = reschedule_branch svc referral_id new_datetime w1)
  /\ (~ rescheduled ->
      process_call_outcome svc call_log payload w
      = follow_up_branch svc referral_id payload w1)
  /\ exists new,
       trace (process_call_outcome svc call_log payload w).2
       = (trace w1 ++ new)%list
       /\ (existsb is_reschedule_call new = true <-> rescheduled)
       /\ (existsb is_flag_call new = true <-> ~ rescheduled).
Proof.
  intros Hid Hrid Hupd w1 rescheduled.
  pose proof (process_call_outcome_run _ payload _ _ _ _ Hid Hrid Hupd)
    as Hrun. fold w1 in Hrun.
  destruct (reschedule_time payload) as [dt|] eqn:Hbranch.
  - pose proof Hbranch as [Hres Htime]%reschedule_time_spec.
    assert (Hyes : rescheduled) by (split; congruence).
    split; [intros _; exists dt; now split|].
    split; [intros Hno; contradiction|].
    destruct (reschedule_branch_trace referral_id dt w1) as (new & E & Hr & Hf).
    exists new. rewrite Hrun. split; [exact E|]. rewrite Hr, Hf.
    split; [tauto|]. split; [discriminate | intros Hno; contradiction].
  - pose proof Hbranch as Hno%reschedule_time_none. fold rescheduled in Hno.
    split; [intros Hyes; contradiction|].
    split; [intros _; exact Hrun|].
    destruct (follow_up_branch_trace referral_id payload w1)
      as (rest & E & F).
    eexists. rewrite Hrun. split; [exact E|].
    assert (Hr : existsb is_reschedule_call rest = false)
      by (eapply existsb_none_of; [|exact F]; now intros []).
    cbn. rewrite Hr. split; [split; [discriminate | contradiction]|].
    split; [intros _; exact Hno | reflexivity].
Qed.

(** C10: an outcome "rescheduled" without a new appointment time takes the
    follow-up arm: no orchestrator call is recorded, the flagger is given
    the outcome "rescheduled", which the title and the description of the
    flag name, and since the priority table has no such key the flag handed
    to the store has priority medium. *)
Theorem rescheduled_without_time_is_flagged_medium call_log payload
    (w : World S) id referral_id s1 :
  outcome payload = Some "rescheduled" ->
  new_appointment_time payload = None ->
  call_log !! "id" = Some id ->
  call_log !! "referral_id" = Some referral_id ->
  update_call_log svc id
    (call_update_for payload (utcnow_isoformat svc (store w))) (store w)
  = (Ok tt, s1) ->
  let flag := flag_data_for referral_id "rescheduled" (transcript payload) in
  (exists rest,
     trace (process_call_outcome svc call_log payload w).2
     = (trace (after_update svc w id payload s1)
        ++ [EvPrint "📞 Call outcome: rescheduled";
            EvPrint ("   Referral " +:+ py_str referral_id
                     +:+ " remains MISSED - creating follow-up flag");
            EvCreateFlag flag]
        ++ rest)%list
     /\ forallb is_print rest = true)
  /\ priority_map !! "rescheduled" = None
  /\ flag_priority flag = MEDIUM
  /\ flag_title flag = "Follow-up needed: Rescheduled"
  /\ String.prefix "Automated call outcome: rescheduled"
       (flag_description flag) = true.
Proof.
  intros Hout Htime Hid Hrid Hupd flag.
  split; [|repeat split;
           unfold flag, flag_data_for, description_parts, str_truthy;
           destruct (transcript payload) as [t|];
           [destruct (String.eqb t "")|]; reflexivity].
  rewrite (process_call_outcome_run _ payload _ _ _ _ Hid Hrid Hupd).
  assert (Hbranch : reschedule_time payload = None)
    by (unfold reschedule_time; now rewrite Hout, Htime).
  assert (Ho : outcome_or_status payload = "rescheduled")
    by (unfold outcome_or_status; now rewrite Hout).
  rewrite Hbranch.
  destruct (follow_up_branch_trace referral_id payload
              (after_update svc w id payload s1)) as (rest & E & F).
  rewrite Ho in E. exists rest. split; [exact E | exact F].
Qed.

(** C2, as the code has it: a provider status outside completed, failed,
    no_answer is stored as completed, the default of the status table.  The
    event is processed like any other: the call-attempt update is written
    with that status, and when the event has no outcome the flagger runs
    with the status string as the outcome. *)
Theorem unmapped_status_is_stored_as_completed call_log payload
    (w : World S) id referral_id s1 :
  status payload <> "completed" ->
  status payload <> "failed" ->
  status payload <> "no_answer" ->
  call_log !! "id" = Some id ->
  call_log !! "referral_id" = Some referral_id ->
  update_call_log svc id
    (call_update_for payload (utcnow_isoformat svc (store w))) (store w)
  = (Ok tt, s1) ->
  mapped_status payload = COMPLETED
  /\ exists call_update rest,
       trace (process_call_outcome svc call_log payload w).2
       = (trace w ++ EvUpdateCallLog id call_update :: rest)%list
       /\ cu_status call_update = COMPLETED
       /\ (outcome payload = None ->
           exists rest',
             rest
             = ([EvPrint ("📞 Call outcome: " +:+ status payload);
                 EvPrint ("   Referral " +:+ py_str referral_id
                          +:+ " remains MISSED - creating follow-up flag");
                 EvCreateFlag
                   (flag_data_for referral_id (status payload)
                      (transcript payload))]
                ++ rest')%list
             /\ forallb is_print rest' = true).
Proof.
  intros H1 H2 H3 Hid Hrid Hupd.
  assert (Hst : mapped_status payload = COMPLETED)
    by (unfold mapped_status; now rewrite status_map_unmapped).
  split; [exact Hst|].
  pose proof (process_call_outcome_run _ payload _ _ _ _ Hid Hrid Hupd)
    as Hrun.
  destruct (outcome payload) as [o|] eqn:Hout.
  - assert (Hem : emits (fun _ => true)
                    (match reschedule_time payload with
                     | Some dt => reschedule_branch svc referral_id dt
                     | None => follow_up_branch svc referral_id payload
                     end)).
    { destruct (reschedule_time payload).
      - unfold reschedule_branch. repeat emits_step.
        eapply emits_weaken; [|apply handle_successful_reschedule_emits].
        reflexivity.
      - unfold follow_up_branch, create_follow_up_flag. repeat emits_step. }
    destruct (Hem (after_update svc w id payload s1)) as (rest & E & _).
    exists (call_update_for payload (utcnow_isoformat svc (store w))), rest.
    split; [|split; [exact Hst | discriminate]].
    rewrite Hrun.
    destruct (reschedule_time payload); rewrite E; cbn [after_update trace];
      now rewrite <- app_assoc.
  - assert (Hbranch : reschedule_time payload = None)
      by (unfold reschedule_time; now rewrite Hout).
    assert (Ho : outcome_or_status payload = status payload)
      by (unfold outcome_or_status; now rewrite Hout).
    rewrite Hbranch in Hrun.
    destruct (follow_up_branch_trace referral_id payload
                (after_update svc w id payload s1)) as (rest' & E & F).
    rewrite Ho in E.
    exists (call_update_for payload (utcnow_isoformat svc (store w))).
    eexists. split; [|split; [exact Hst|]].
    + rewrite Hrun, E. cbn [after_update trace].
      rewrite <- app_assoc. reflexivity.
    + intros _. exists rest'. split; [reflexivity | exact F].
Qed.

End Processor.

(** ** Acknowledgment Path *)

Section Acknowledgment.
Context `{DT : DateTimeLib} {S : Type} (svc : Services S).

Lemma lacks_call_log_id_falsy payload :
  lacks_call_log_id payload -> truthy (call_log_id_of payload) = false.
Proof.
  unfold lacks_call_log_id, call_log_id_of, dict_get.
  destruct (metadata payload) as [md|]; [|reflexivity].
  intros ->. now destruct (dict_truthy md).
Qed.

(** C4: when verification of the raw body against the header (the empty
    string when the header is absent) fails, the handler raises 401 having
    recorded the verification and nothing else: no parsing, no lookup, no
    queued task, the store untouched, and the delivery as a whole stops
    there.  An absent header and an empty one are the same request. *)
Theorem bad_signature_is_rejected_first body
    (x_webhook_signature : option string) (w : World S) :
  verify_webhook_signature svc body (default "" x_webhook_signature) (store w)
  = Ok false ->
  let rejected :=
    (@Raise WebhookResponse
       (HTTPException HTTP_401_UNAUTHORIZED "Invalid webhook signature"),
     {| store := store w; tasks := tasks w;
        trace :=
          (trace w
           ++ [EvVerifySignature body (default "" x_webhook_signature)])%list
     |}) in
  handle_elevenlabs_webhook svc body x_webhook_signature w = rejected
  /\ deliver svc body x_webhook_signature w = rejected
  /\ handle_elevenlabs_webhook svc body None
     = handle_elevenlabs_webhook svc body (Some "").
Proof.
  intros Hverify rejected.
  assert (Hh : handle_elevenlabs_webhook svc body x_webhook_signature w
               = rejected).
  { unfold handle_elevenlabs_webhook. unfold bind at 1, query.
    now rewrite Hverify. }
  split; [exact Hh|]. split; [|reflexivity].
  unfold deliver. unfold bind at 1. now rewrite Hh.
Qed.

(** C5: for a verified, well-formed event whose correlation payload has no
    call_log_id, or whose call_log_id finds no row, the handler answers
    success; the store and the task queue are as before and nothing
    recorded is a write, a notification or a queued task. *)
Theorem unresolved_correlation_is_acknowledged body x_webhook_signature
    payload (w : World S) :
  verify_webhook_signature svc body (default "" x_webhook_signature) (store w)
  = Ok true ->
  parse_payload svc body = Ok payload ->
  lacks_call_log_id payload
  \/ (exists row,
        get_call_log svc (call_log_id_of payload) (store w) = Ok row
        /\ truthy_row row = None) ->
  exists response new,
    handle_elevenlabs_webhook svc body x_webhook_signature w
    = (Ok response,
       {| store := store w; tasks := tasks w;
          trace := (trace w ++ new)%list |})
    /\ success response = true
    /\ existsb is_side_effect new = false.
Proof.
  intros Hverify Hparse Hmiss.
  unfold handle_elevenlabs_webhook. unfold bind at 1, query.
  rewrite Hverify. cbn [negb store tasks trace].
  unfold bind at 1, try_except, bind at 1, emit, lift. rewrite Hparse.
  cbn [store tasks trace].
  destruct (truthy (call_log_id_of payload)) eqn:Hid; cbn [negb].
  - destruct Hmiss as [Hlacks | (row & Hget & Hrow)].
    { apply lacks_call_log_id_falsy in Hlacks. congruence. }
    unfold bind at 1, query. cbn [store tasks trace]. rewrite Hget, Hrow.
    unfold bind, print, emit, ret. cbn [store tasks trace].
    rewrite <- !app_assoc. eexists _, _. split; [reflexivity|]. now split.
  - unfold bind, print, emit, ret. cbn [store tasks trace].
    rewrite <- !app_assoc. eexists _, _. split; [reflexivity|]. now split.
Qed.

End Acknowledgment.

(** ** The scenarios, run on the in-memory deployment *)

Section Scenarios.
Import InMemory.

(** C1 on the code: the declined event of scenario B is delivered twice.
    After the first delivery the call attempt is terminal (failed) and one
    flag exists; the second delivery is accepted, rewrites the call attempt
    (its completed_at moves from t0 to t2) and files a second, identical
    flag. *)
Theorem second_delivery_repeats_side_effects :
  let first := deliver healthy "declined" (signed "declined") (start store0) in
  let second := deliver healthy "declined" (signed "declined") first.2 in
  (call_logs (store first.2) !! "c1") ≫= (fun row => row !! "status")
  = Some (PStr "failed")
  /\ (call_logs (store first.2) !! "c1") ≫= (fun row => row !! "completed_at")
     = Some (PStr "t0")
  /\ length (flags (store first.2)) = 1%nat
  /\ raises second.1 = false
  /\ (call_logs (store second.2) !! "c1") ≫= (fun row => row !! "completed_at")
     = Some (PStr "t2")
  /\ flags (store second.2)
     = (flags (store first.2) ++ flags (store first.2))%list
  /\ existsb is_side_effect
       (drop (length (trace first.2)) (trace second.2)) = true.
Proof. vm_compute. repeat split; reflexivity. Qed.

(** The status "busy" is stored as completed. *)
Lemma unmapped_status_is_not_stored_as_failed :
  ~ unmapped_status_is_stored_as_failed.
Proof.
  intros H. specialize (H busy_event).
  assert (Hc : mapped_status busy_event = COMPLETED) by reflexivity.
  rewrite Hc in H. discriminate H; discriminate.
Qed.

Lemma unmapped_status_is_stored_as_completed_witness :
  status busy_event <> "completed"
  /\ mapped_status busy_event = COMPLETED
  /\ exists call_update rest,
       trace (process_call_outcome healthy call_log_c1 busy_event
                (start store0)).2
       = EvUpdateCallLog (PStr "c1") call_update :: rest
       /\ cu_status call_update = COMPLETED.
Proof.
  assert (H1 : status busy_event <> "completed") by discriminate.
  assert (H2 : status busy_event <> "failed") by discriminate.
  assert (H3 : status busy_event <> "no_answer") by discriminate.
  destruct (unmapped_status_is_stored_as_completed healthy call_log_c1
              busy_event (start store0) (PStr "c1") (PStr "r1")
              (updated busy_event) H1 H2 H3 eq_refl eq_refl eq_refl)
    as (Hst & cu & rest & Htrace & Hcu & _).
  split; [exact H1|]. split; [exact Hst|].
  exists cu, rest. split; [exact Htrace | exact Hcu].
Defined.

Lemma branch_follows_resolution_and_time_witness :
  call_log_c1 !! "id" = Some (PStr "c1")
  /\ process_call_outcome healthy call_log_c1 declined_event (start store0)
     = follow_up_branch healthy (PStr "r1") declined_event
         (after_update healthy (start store0) (PStr "c1") declined_event
            (updated declined_event)).
Proof.
  split; [reflexivity|].
  destruct (branch_follows_resolution_and_time healthy call_log_c1
              declined_event (start store0) (PStr "c1") (PStr "r1")
              (updated declined_event) eq_refl eq_refl eq_refl)
    as (_ & Hflag & _).
  apply Hflag. intros [Hres _]. discriminate Hres.
Defined.

Lemma bad_signature_is_rejected_first_witness :
  verify_webhook_signature healthy "declined" "" store0 = Ok false
  /\ handle_elevenlabs_webhook healthy "declined" None (start store0)
     = (Raise (HTTPException 401 "Invalid webhook signature"),
        {| store := store0; tasks := [];
           trace := [EvVerifySignature "declined" ""] |}).
Proof.
  split; [reflexivity|].
  apply (bad_signature_is_rejected_first healthy "declined" None
           (start store0) eq_refl).
Defined.

Lemma unresolved_correlation_is_acknowledged_witness :
  get_call_log healthy (call_log_id_of stale_event) store0 = Ok None
  /\ exists response new,
       handle_elevenlabs_webhook healthy "stale" (signed "stale")
         (start store0)
       = (Ok response, {| store := store0; tasks := []; trace := new |})
       /\ success response = true
       /\ existsb is_side_effect new = false.
Proof.
  split; [reflexivity|].
  apply (unresolved_correlation_is_acknowledged healthy "stale"
           (signed "stale") stale_event (start store0) eq_refl eq_refl).
  right. exists None. split; reflexivity.
Defined.

Lemma calendar_failure_is_contained_witness :
  let run :=
    handle_successful_reschedule calendar_down (PStr "r1") new_time
      (start store0) in
  get_referral calendar_down (PStr "r1") store0 = Ok (Some referral_r1)
  /\ run.1 = Ok tt
  /\ exists after,
       trace run.2
       = (step1_events (PStr "r1") new_time referral_r1 ++ after)%list
       /\ existsb is_row_write after = false.
Proof.
  intros run. split; [reflexivity|].
  destruct (calendar_failure_is_contained calendar_down (PStr "r1") new_time
              (start store0) referral_r1 rescheduled_row store_after_step1
              eq_refl eq_refl eq_refl eq_refl)
    as (Hok & _ & _ & Hafter & _).
  split; [exact Hok | exact Hafter].
Defined.

(** The store answers no row for the write: the orchestrator prints and
    returns normally. *)
Lemma failed_step1_returns_normally :
  ~ failed_step1_surfaces_error reschedule_answers_nothing (PStr "r1")
      new_time (start store0).
Proof.
  intros H.
  destruct (H referral_r1 (Ok None) store0 eq_refl eq_refl eq_refl eq_refl)
    as (Hraise & _).
  vm_compute in Hraise. discriminate Hraise.
Qed.

Lemma failed_referral_update_aborts_witness :
  reschedule_referral reschedule_answers_nothing (PStr "r1") new_time
    reschedule_reason store0 = (Ok None, store0)
  /\ handle_successful_reschedule reschedule_answers_nothing (PStr "r1")
       new_time (start store0)
     = (Ok tt,
        {| store := store0; tasks := [];
           trace := [EvGetReferral (PStr "r1");
                     EvRescheduleReferral (PStr "r1") new_time
                       reschedule_reason;
                     EvPrint "Failed to reschedule referral r1"] |}).
Proof.
  split; [reflexivity|].
  apply (failed_referral_update_aborts reschedule_answers_nothing (PStr "r1")
           new_time (start store0) referral_r1 (Ok None) store0
           eq_refl eq_refl eq_refl eq_refl).
Defined.

Lemma rescheduled_without_time_is_flagged_medium_witness :
  outcome rescheduled_no_time_event = Some "rescheduled"
  /\ new_appointment_time rescheduled_no_time_event = None
  /\ exists rest,
       trace (process_call_outcome healthy call_log_c1
                rescheduled_no_time_event (start store0)).2
       = ([EvUpdateCallLog (PStr "c1")
             (call_update_for rescheduled_no_time_event "t0");
           EvPrint "📞 Call outcome: rescheduled";
           EvPrint "   Referral r1 remains MISSED - creating follow-up flag";
           EvCreateFlag
             (flag_data_for (PStr "r1") "rescheduled"
                (transcript rescheduled_no_time_event))]
          ++ rest)%list
       /\ forallb is_print rest = true.
Proof.
  split; [reflexivity|]. split; [reflexivity|].
  destruct (rescheduled_without_time_is_flagged_medium healthy call_log_c1
              rescheduled_no_time_event (start store0) (PStr "c1")
              (PStr "r1") (updated rescheduled_no_time_event)
              eq_refl eq_refl eq_refl eq_refl eq_refl)
    as ((rest & Htrace & Hrest) & _).
  exists rest. split; [exact Htrace | exact Hrest].
Defined.

(** *** The scenarios of the specification *)

(** Scenario A: a rescheduled event moves the referral from missed to
    scheduled at the new time and files no flag. *)
Example scenario_rescheduled :
  let run :=
    deliver healthy "rescheduled" (signed "rescheduled") (start store0) in
  raises run.1 = false
  /\ (call_logs (store run.2) !! "c1") ≫= (fun row => row !! "status")
     = Some (PStr "completed")
  /\ (call_logs (store run.2) !! "c1") ≫= (fun row => row !! "resolution")
     = Some (PStr "rescheduled")
  /\ (referrals (store run.2) !! "r1") ≫= (fun row => row !! "status")
     = Some (PStr "scheduled")
  /\ (referrals (store run.2) !! "r1") ≫= (fun row => row !! "scheduled_date")
     = Some (PStr new_time)
  /\ flags (store run.2) = [].
Proof. vm_compute. repeat split; reflexivity. Qed.

(** Scenario B: a declined event leaves the referral as it was and files a
    flag of priority high. *)
Example scenario_declined :
  let run := deliver healthy "declined" (signed "declined") (start store0) in
  raises run.1 = false
  /\ bool_decide (referrals (store run.2) = referrals store0) = true
  /\ flag_priority <$> flags (store run.2) = [HIGH].
Proof. vm_compute. repeat split; reflexivity. Qed.

(** Scenario C: status no_answer without an outcome files a flag of
    priority medium whose title names the status. *)
Example scenario_no_answer :
  let payload := event_of "no_answer" None None (correlation "c1") in
  let run := process_call_outcome healthy call_log_c1 payload (start store0) in
  (fun flag => (flag_priority flag, flag_title flag)) <$> flags (store run.2)
  = [(MEDIUM, "Follow-up needed: No Answer")].
Proof. vm_compute. reflexivity. Qed.

(** Scenario D: with the calendar raising, the referral is scheduled all
    the same, the email goes out and the delivery succeeds. *)
Example scenario_calendar_down :
  let run :=
    deliver calendar_down "rescheduled" (signed "rescheduled")
      (start store0) in
  raises run.1 = false
  /\ existsb (fun e => match e with EvTaskFailed _ => true | _ => false end)
       (trace run.2) = false
  /\ (referrals (store run.2) !! "r1") ≫= (fun row => row !! "status")
     = Some (PStr "scheduled")
  /\ length (sent_emails (store run.2)) = 1%nat
  /\ calendar_updates (store run.2) = [].
Proof. vm_compute. repeat split; reflexivity. Qed.

(** Scenario E: an unknown call-attempt id is acknowledged and the store is
    left as it was. *)
Example scenario_stale_id :
  let run := deliver healthy "stale" (signed "stale") (start store0) in
  (success <$> match run.1 with Ok r => Some r | Raise _ => None end)
  = Some true
  /\ bool_decide (call_logs (store run.2) = call_logs store0) = true
  /\ bool_decide (referrals (store run.2) = referrals store0) = true
  /\ flags (store run.2) = []
  /\ tasks run.2 = [].
Proof. vm_compute. repeat split; reflexivity. Qed.

(** A body that is no event is a client error, after verification. *)
Example scenario_malformed_body :
  (handle_elevenlabs_webhook healthy "{" (signed "{") (start store0)).1
  = Raise (HTTPException 400
             "Invalid payload: Expecting value: line 1 column 1 (char 0)").
Proof. vm_compute. reflexivity. Qed.

(** The title of a flag, on the outcomes of the provider. *)
Example titles :
  title (replace "_" " " "callback_requested") = "Callback Requested"
  /\ title (replace "_" " " "no_answer") = "No Answer"
  /\ title (replace "_" " " "INVALID_number") = "Invalid Number".
Proof. vm_compute. repeat split; reflexivity. Qed.

End Scenarios.

(** * Further properties of the webhook router *)

Section HandlerPaths.
Context `{DT : DateTimeLib} {S : Type} (svc : Services S).

(** X1: a verified body that does not parse is answered 400 with the
    parser's message; the verification and the parse attempt are all that
    is recorded, so nothing is looked up, queued or written. *)
Theorem malformed_payload_is_rejected body x_webhook_signature e
    (w : World S) :
  verify_webhook_signature svc body (default "" x_webhook_signature) (store w)
  = Ok true ->
  parse_payload svc body = Raise e ->
  handle_elevenlabs_webhook svc body x_webhook_signature w
  = (Raise (HTTPException HTTP_400_BAD_REQUEST
              ("Invalid payload: " +:+ exn_str e)),
     {| store := store w; tasks := tasks w;
        trace :=
          (trace w
           ++ [EvVerifySignature body (default "" x_webhook_signature);
               EvParsePayload body])%list |}).
Proof.
  intros Hverify Hparse.
  unfold handle_elevenlabs_webhook. unfold bind at 1, query.
  rewrite Hverify. cbn [negb store tasks trace].
  unfold bind at 1, try_except, bind at 1, emit, lift. rewrite Hparse.
  unfold raise. cbn [store tasks trace]. now rewrite <- app_assoc.
Qed.

(** X2: a verified event whose call_log_id finds a row is queued exactly
    once, with that row and the parsed payload; the handler answers at once
    and itself updates nothing. *)
Theorem resolved_event_is_queued_once body x_webhook_signature payload
    call_log row (w : World S) :
  verify_webhook_signature svc body (default "" x_webhook_signature) (store w)
  = Ok true ->
  parse_payload svc body = Ok payload ->
  truthy (call_log_id_of payload) = true ->
  get_call_log svc (call_log_id_of payload) (store w) = Ok row ->
  truthy_row row = Some call_log ->
  handle_elevenlabs_webhook svc body x_webhook_signature w
  = (Ok {| success := true; message := "Webhook received, processing" |},
     {| store := store w;
        tasks := (tasks w ++ [(call_log, payload)])%list;
        trace :=
          (trace w
           ++ [EvVerifySignature body (default "" x_webhook_signature);
               EvParsePayload body;
               EvGetCallLog (call_log_id_of payload);
               EvAddTask call_log payload])%list |}).
Proof.
  intros Hverify Hparse Hid Hget Hrow.
  unfold handle_elevenlabs_webhook. unfold bind at 1, query.
  rewrite Hverify. cbn [negb store tasks trace].
  unfold bind at 1, try_except, bind at 1, emit, lift. rewrite Hparse.
  cbn [store tasks trace]. rewrite Hid. cbn [negb].
  unfold bind at 1, query. cbn [store tasks trace]. rewrite Hget, Hrow.
  unfold bind, add_task, ret. cbn [store tasks trace].
  now rewrite <- !app_assoc.
Qed.

(** X3: whatever the request, the handler leaves the store as it found it;
    what it records is verification, parsing, the lookup, prints and at
    most one queued task. *)
Theorem handler_never_writes body x_webhook_signature (w : World S) :
  let run := handle_elevenlabs_webhook svc body x_webhook_signature w in
  store run.2 = store w
  /\ (tasks run.2 = tasks w
      \/ exists task, tasks run.2 = (tasks w ++ [task])%list)
  /\ exists new,
       trace run.2 = (trace w ++ new)%list
       /\ forallb (fun e => negb (is_side_effect e) || is_add_task e) new
          = true.
Proof.
  cbv zeta.
  destruct (handle_elevenlabs_webhook svc body x_webhook_signature w)
    as [r w'] eqn:Hrun.
  cbn [snd]. revert Hrun.
  unfold handle_elevenlabs_webhook.
  unfold bind at 1, query.
  destruct (verify_webhook_signature svc body _ (store w)) as [[|]|e];
    unfold raise; cbn [negb store tasks trace].
  2,3: (intros [= <- <-]; cbn [store tasks trace];
        split; [reflexivity|]; split; [now left|]; eexists [_];
        split; reflexivity).
  unfold bind at 1, try_except, bind at 1, emit, lift.
  destruct (parse_payload svc body) as [payload|e];
    cbn [store tasks trace].
  2: { intros [= <- <-]; cbn [store tasks trace].
       split; [reflexivity|]; split; [now left|].
       rewrite <- app_assoc. eexists. split; reflexivity. }
  destruct (truthy (call_log_id_of payload)); cbn [negb].
  - unfold bind at 1, query. cbn [store tasks trace].
    destruct (get_call_log svc _ (store w)) as [row|e];
      [destruct (truthy_row row)|];
      unfold bind, add_task, print, emit, ret; cbn [store tasks trace];
      intros [= <- <-]; cbn [store tasks trace]; rewrite <- ?app_assoc.
    + split; [reflexivity|]. split; [right; eauto|].
      eexists. split; reflexivity.
    + split; [reflexivity|]. split; [now left|].
      eexists. split; reflexivity.
    + split; [reflexivity|]. split; [now left|].
      eexists. split; reflexivity.
  - unfold bind, print, emit, ret; cbn [store tasks trace].
    intros [= <- <-]; cbn [store tasks trace]. rewrite <- ?app_assoc.
    split; [reflexivity|]. split; [now left|]. eexists. split; reflexivity.
Qed.

End HandlerPaths.

Section ProcessorEdges.
Context `{DT : DateTimeLib} {S : Type} (svc : Services S).

(** X4: the orchestrator and the flagger are reached only through a
    written update: if the task records any of their calls, the row had an
    "id" and a "referral_id" and the call-attempt update returned.  A row
    without "id", in particular, raises KeyError before anything is
    recorded. *)
Theorem subflows_need_a_written_update call_log payload (w : World S) new :
  trace (process_call_outcome svc call_log payload w).2
  = (trace w ++ new)%list ->
  existsb (fun e => is_reschedule_call e || is_flag_call e) new = true ->
  exists id referral_id s1,
    call_log !! "id" = Some id
    /\ call_log !! "referral_id" = Some referral_id
    /\ update_call_log svc id
         (call_update_for payload (utcnow_isoformat svc (store w))) (store w)
       = (Ok tt, s1).
Proof.
  unfold process_call_outcome.
  unfold bind at 1, read; cbn [store tasks trace].
  unfold bind at 1, lift, subscript.
  destruct (call_log !! "id") as [id|].
  2: { cbn [snd]. intros Hnew.
       assert (new = []) as ->
         by (apply (app_inv_head (trace w)); now rewrite app_nil_r).
       discriminate. }
  unfold bind at 1, call; cbn [store tasks trace].
  destruct (update_call_log svc id _ (store w)) as [[[]|e] s1] eqn:Hupd.
  2: { cbn [snd trace]. intros Hnew%app_inv_head. subst new. discriminate. }
  unfold bind at 1.
  destruct (call_log !! "referral_id") as [referral_id|].
  2: { cbn [snd trace]. intros Hnew%app_inv_head. subst new. discriminate. }
  intros _ _. now exists id, referral_id, s1.
Qed.

(** X5: a call log row with an "id" but no "referral_id" gets its update
    written and then makes the task raise KeyError: neither the
    orchestrator nor the flagger runs. *)
Theorem row_without_referral_is_updated_then_dropped call_log payload
    (w : World S) id s1 :
  call_log !! "id" = Some id ->
  call_log !! "referral_id" = None ->
  update_call_log svc id
    (call_update_for payload (utcnow_isoformat svc (store w))) (store w)
  = (Ok tt, s1) ->
  process_call_outcome svc call_log payload w
  = (Raise (KeyError "referral_id"), after_update svc w id payload s1).
Proof.
  intros Hid Hrid Hupd. unfold process_call_outcome, after_update.
  unfold bind at 1, read; simpl.
  unfold bind at 1, lift, subscript. rewrite Hid.
  unfold bind at 1, call; simpl. rewrite Hupd.
  unfold bind at 1. now rewrite Hrid.
Qed.

(** X6: when the call-attempt update raises, the exception leaves the task
    with the attempted update as the only thing recorded: no flag is filed
    and no referral is touched. *)
Theorem failed_update_stops_processing call_log payload (w : World S)
    id e s1 :
  call_log !! "id" = Some id ->
  update_call_log svc id
    (call_update_for payload (utcnow_isoformat svc (store w))) (store w)
  = (Raise e, s1) ->
  process_call_outcome svc call_log payload w
  = (Raise e, after_update svc w id payload s1).
Proof.
  intros Hid Hupd. unfold process_call_outcome, after_update.
  unfold bind at 1, read; simpl.
  unfold bind at 1, lift, subscript. rewrite Hid.
  unfold bind at 1, call; simpl. now rewrite Hupd.
Qed.

Lemma mapped_status_terminal (payload : ElevenLabsWebhookPayload) :
  terminal_status (mapped_status payload) = true.
Proof.
  unfold mapped_status, status_map. simpl.
  repeat (rewrite lookup_insert; case_decide; [reflexivity|]).
  now rewrite lookup_empty.
Qed.

(** X7: the status written to a call attempt is always completed, failed
    or no_answer, never pending or in-progress: the three provider words
    map to themselves and anything else to completed, and every update the
    task records carries such a status. *)
Theorem written_status_is_terminal call_log payload (w : World S) :
  mapped_status payload
  = (if decide (status payload = "failed") then FAILED
     else if decide (status payload = "no_answer") then NO_ANSWER
     else COMPLETED)
  /\ exists new,
       trace (process_call_outcome svc call_log payload w).2
       = (trace w ++ new)%list
       /\ forallb writes_terminal_status new = true.
Proof.
  split.
  - unfold mapped_status.
    destruct (decide (status payload = "failed")) as [->|Hf];
      [reflexivity|].
    destruct (decide (status payload = "no_answer")) as [->|Hn];
      [reflexivity|].
    destruct (decide (status payload = "completed")) as [->|Hc];
      [reflexivity|].
    now rewrite status_map_unmapped.
  - assert (Hem : emits writes_terminal_status
                    (process_call_outcome svc call_log payload)).
    { unfold process_call_outcome.
      apply emits_bind; [apply emits_read|]. intros completed_at.
      apply emits_bind; [apply emits_lift|]. intros id.
      apply emits_bind;
        [apply emits_call; apply mapped_status_terminal|]. intros _.
      apply emits_bind; [apply emits_lift|]. intros referral_id.
      destruct (reschedule_time payload).
      - unfold reschedule_branch. repeat emits_step.
        eapply emits_weaken; [|apply handle_successful_reschedule_emits].
        now intros [].
      - unfold follow_up_branch, create_follow_up_flag. repeat emits_step. }
    exact (Hem w).
Qed.

(** X8: an outcome that is the empty string is an absent outcome: the task
    does exactly what it does for the same event without outcome (null
    resolution, the status as the flag's outcome, never the reschedule
    arm). *)
Theorem empty_outcome_is_absent call_log payload :
  outcome payload = Some "" ->
  mapped_resolution payload = None
  /\ reschedule_time payload = None
  /\ outcome_or_status payload = status payload
  /\ process_call_outcome svc call_log payload
     = process_call_outcome svc call_log (with_outcome None payload).
Proof.
  intros Hout.
  assert (Hres : mapped_resolution payload = None)
    by (unfold mapped_resolution; now rewrite Hout).
  assert (Htime : reschedule_time payload = None)
    by (unfold reschedule_time; now rewrite Hout).
  assert (Hos : outcome_or_status payload = status payload)
    by (unfold outcome_or_status; now rewrite Hout).
  repeat split; try assumption.
  unfold process_call_outcome, follow_up_branch, call_update_for.
  now rewrite Htime, Hres, Hos.
Qed.

End ProcessorEdges.

Section OrchestratorEdges.
Context `{DT : DateTimeLib} {S : Type} (svc : Services S).

(** X9: a rescheduled event for a referral the store does not find is
    dropped in silence: the call attempt is updated, the orchestrator
    prints "not found" and returns normally, and the task ends without a
    reschedule, without a flag and without an exception. *)
Theorem unknown_referral_is_skipped call_log payload (w : World S) id
    referral_id s1 new_datetime row :
  call_log !! "id" = Some id ->
  call_log !! "referral_id" = Some referral_id ->
  update_call_log svc id
    (call_update_for payload (utcnow_isoformat svc (store w))) (store w)
  = (Ok tt, s1) ->
  reschedule_time payload = Some new_datetime ->
  get_referral svc referral_id s1 = Ok row ->
  truthy_row row = None ->
  process_call_outcome svc call_log payload w
  = (Ok tt,
     {| store := s1; tasks := tasks w;
        trace :=
          (trace (after_update svc w id payload s1)
           ++ [EvPrint ("📞 Call outcome: RESCHEDULED - Updating referral "
                        +:+ py_str referral_id);
               EvPrint "   Status will change from MISSED → SCHEDULED";
               EvPrint ("   New appointment: "
                        +:+ datetime_str new_datetime);
               EvGetReferral referral_id;
               EvPrint ("Referral " +:+ py_str referral_id
                        +:+ " not found")])%list |}).
Proof.
  intros Hid Hrid Hupd Htime Hget Hrow.
  rewrite (process_call_outcome_run svc _ payload _ _ _ _ Hid Hrid Hupd).
  rewrite Htime. unfold reschedule_branch, after_update.
  unfold bind at 1, print at 1, emit at 1.
  unfold bind at 1, print at 1, emit at 1.
  unfold bind at 1, print at 1, emit at 1. cbn [store tasks trace].
  unfold handle_successful_reschedule.
  unfold bind at 1, query. cbn [store tasks trace]. rewrite Hget, Hrow.
  unfold print, emit; cbn [store tasks trace]. now rewrite <- !app_assoc.
Qed.

Lemma bind_lift_ok {A B} (v : A) (k : A -> M S B) :
  bind (lift (Ok v)) k = k v.
Proof. reflexivity. Qed.

(** A guarded call: what follows the call, in the body or in the handler,
    records only [P]-events. *)
Lemma call_first {A B} (P : event -> bool) ev (op : S -> res A * S)
    (k : A -> M S B) (h : exn -> M S B) (w : World S) :
  (forall a, emits P (k a)) -> (forall e, emits P (h e)) ->
  exists rest,
    trace (try_except (bind (call ev op) k) h w).2
    = (trace w ++ ev :: rest)%list
    /\ forallb P rest = true.
Proof.
  intros Hk Hh. unfold try_except, bind, call.
  destruct (op (store w)) as [[a|e] s1]; cbv beta iota zeta.
  - destruct (Hk a {| store := s1; tasks := tasks w;
                      trace := (trace w ++ [ev])%list |})
      as (r1 & E1 & F1).
    destruct (k a _) as [[b|e] w2]; cbn [snd trace] in *.
    + exists r1. now rewrite E1, <- app_assoc.
    + destruct (Hh e w2) as (r2 & E2 & F2).
      exists (r1 ++ r2)%list.
      rewrite E2, E1, <- !app_assoc. split; [reflexivity|].
      now rewrite forallb_app, F1, F2.
  - destruct (Hh e {| store := s1; tasks := tasks w;
                      trace := (trace w ++ [ev])%list |})
      as (r2 & E2 & F2).
    exists r2. cbn [trace] in E2. now rewrite E2, <- app_assoc.
Qed.

Lemma subscript_dict_get (d : dict) k v :
  d !! k = Some v -> subscript d k = Ok v /\ dict_get d k = v.
Proof. intros H. unfold subscript, dict_get. now rewrite H. Qed.

(** X10: the email block never raises, and it calls the mailer only for a
    row with a truthy patient_email and with patient_name and
    specialist_type keys, with exactly those values as arguments; for a
    row whose patient_email is missing, None or empty it does nothing at
    all. *)
Theorem email_needs_a_complete_row referral_id referral new_datetime
    old_datetime (w : World S) :
  let run :=
    email_step svc referral_id referral new_datetime old_datetime w in
  run.1 = Ok tt
  /\ (truthy (dict_get referral "patient_email") = false -> run.2 = w)
  /\ exists new,
       trace run.2 = (trace w ++ new)%list
       /\ forall args,
            In (EvSendEmail args) new ->
            truthy (dict_get referral "patient_email") = true
            /\ is_Some (referral !! "patient_name")
            /\ is_Some (referral !! "specialist_type")
            /\ args = rescheduled_email_for referral new_datetime
                        old_datetime.
Proof.
  cbv zeta. split; [|split].
  - apply never_raises_unit, email_step_never_raises.
  - intros H. unfold email_step. now rewrite H.
  - destruct (truthy (dict_get referral "patient_email")) eqn:Hmail.
    2: { exists []. unfold email_step. rewrite Hmail. cbn [snd].
         split; [now rewrite app_nil_r | intros args []]. }
    pose proof (subscript_dict_get _ _ _ (truthy_dict_get _ _ Hmail))
      as [Hm1 Hm2].
    destruct (referral !! "patient_name") as [name|] eqn:Hname.
    2: { eexists. unfold email_step. rewrite Hmail.
         unfold try_except, bind at 1, lift. rewrite Hm1.
         unfold bind at 1, subscript at 1. rewrite Hname.
         cbn [snd print emit trace]. split; [reflexivity|].
         intros args [[=]|[]]. }
    destruct (referral !! "specialist_type") as [specialist|] eqn:Hspec.
    2: { eexists. unfold email_step. rewrite Hmail.
         unfold try_except, bind at 1, lift. rewrite Hm1.
         unfold bind at 1, subscript at 1. rewrite Hname.
         unfold bind at 1, subscript at 1. rewrite Hspec.
         cbn [snd print emit trace]. split; [reflexivity|].
         intros args [[=]|[]]. }
    destruct (subscript_dict_get _ _ _ Hname) as [Hn1 Hn2].
    destruct (subscript_dict_get _ _ _ Hspec) as [Hs1 Hs2].
    unfold email_step. rewrite Hmail, Hm1, Hn1, Hs1.
    rewrite !bind_lift_ok. cbv beta.
    match goal with
    | |- context [try_except (bind (call ?ev ?op) ?k) ?h w] =>
        destruct (call_first (fun e => negb (is_email_call e)) ev op k h w)
          as (rest & E & F)
    end.
    { intros email_result. repeat emits_step. }
    { intros e. now apply emits_print. }
    eexists. split; [exact E|].
    intros args [[= <-]|Hin].
    + repeat split; eauto.
      unfold rescheduled_email_for. now rewrite Hn2, Hs2.
    + rewrite forallb_forall in F. specialize (F _ Hin). discriminate.
Qed.

(** X11: a row with an address but no patient_name key never reaches the
    mailer: the KeyError is caught inside the step, printed, and the step
    returns normally. *)
Theorem missing_patient_name_sends_nothing referral_id referral new_datetime
    old_datetime (w : World S) :
  truthy (dict_get referral "patient_email") = true ->
  referral !! "patient_name" = None ->
  email_step svc referral_id referral new_datetime old_datetime w
  = (Ok tt,
     {| store := store w; tasks := tasks w;
        trace :=
          (trace w
           ++ [EvPrint "⚠️  Failed to send reschedule email: 'patient_name'"])%list
     |}).
Proof.
  intros Hmail Hname. unfold email_step. rewrite Hmail.
  unfold try_except, bind at 1, lift.
  rewrite (proj1 (subscript_dict_get _ _ _ (truthy_dict_get _ _ Hmail))).
  unfold bind at 1, subscript at 1. rewrite Hname.
  reflexivity.
Qed.

(** X12: when the mailer raises, the step prints the failure and returns
    normally; the send is the only call recorded, so no email log entry is
    written for an email that did not go out. *)
Theorem email_failure_is_swallowed referral_id referral new_datetime
    old_datetime (w : World S) name specialist e s1 :
  truthy (dict_get referral "patient_email") = true ->
  referral !! "patient_name" = Some name ->
  referral !! "specialist_type" = Some specialist ->
  send_appointment_rescheduled_email svc
    (rescheduled_email_for referral new_datetime old_datetime) (store w)
  = (Raise e, s1) ->
  email_step svc referral_id referral new_datetime old_datetime w
  = (Ok tt,
     {| store := s1; tasks := tasks w;
        trace :=
          (trace w
           ++ [EvSendEmail
                 (rescheduled_email_for referral new_datetime old_datetime);
               EvPrint ("⚠️  Failed to send reschedule email: "
                        +:+ exn_str e)])%list |}).
Proof.
  intros Hmail Hname Hspec Hsend. unfold email_step. rewrite Hmail.
  pose proof (subscript_dict_get _ _ _ (truthy_dict_get _ _ Hmail))
    as [Hm1 _].
  destruct (subscript_dict_get _ _ _ Hname) as [Hn1 Hn2].
  destruct (subscript_dict_get _ _ _ Hspec) as [Hs1 Hs2].
  unfold rescheduled_email_for in *. rewrite Hn2, Hs2 in Hsend.
  unfold try_except, bind at 1, lift. rewrite Hm1.
  unfold bind at 1. rewrite Hn1. unfold bind at 1. rewrite Hs1.
  unfold bind at 1, call. cbn [store tasks trace]. rewrite Hsend.
  unfold print, emit. cbn [store tasks trace].
  now rewrite Hn2, Hs2, <- app_assoc.
Qed.

(** X13: the email log entry is written exactly when the mailer's answer
    has a truthy "success": with it, one entry naming the recipient, the
    subject and the provider's message id follows the send; without it,
    the send is all that happens. *)
Theorem email_is_logged_only_on_success referral_id referral new_datetime
    old_datetime (w : World S) name specialist email_result s1 s2 :
  truthy (dict_get referral "patient_email") = true ->
  referral !! "patient_name" = Some name ->
  referral !! "specialist_type" = Some specialist ->
  send_appointment_rescheduled_email svc
    (rescheduled_email_for referral new_datetime old_datetime) (store w)
  = (Ok email_result, s1) ->
  create_email_log svc
    (email_log_for referral_id referral email_result (now_isoformat svc s1)) s1
  = (Ok tt, s2) ->
  email_step svc referral_id referral new_datetime old_datetime w
  = if truthy (dict_get email_result "success") then
      (Ok tt,
       {| store := s2; tasks := tasks w;
          trace :=
            (trace w
             ++ [EvSendEmail
                   (rescheduled_email_for referral new_datetime old_datetime);
                 EvCreateEmailLog
                   (email_log_for referral_id referral email_result
                      (now_isoformat svc s1));
                 EvPrint ("✅ Rescheduled email sent to "
                          +:+ py_str (dict_get referral "patient_email"))])%list
       |})
    else
      (Ok tt,
       {| store := s1; tasks := tasks w;
          trace :=
            (trace w
             ++ [EvSendEmail
                   (rescheduled_email_for referral new_datetime
                      old_datetime)])%list |}).
Proof.
  intros Hmail Hname Hspec Hsend Hlog. unfold email_step. rewrite Hmail.
  pose proof (subscript_dict_get _ _ _ (truthy_dict_get _ _ Hmail))
    as [Hm1 _].
  destruct (subscript_dict_get _ _ _ Hname) as [Hn1 Hn2].
  destruct (subscript_dict_get _ _ _ Hspec) as [Hs1 Hs2].
  unfold rescheduled_email_for, email_log_for in *.
  rewrite Hn2, Hs2 in Hsend. rewrite Hs2 in Hlog.
  unfold try_except, bind at 1, lift. rewrite Hm1.
  unfold bind at 1. rewrite Hn1. unfold bind at 1. rewrite Hs1.
  unfold bind at 1, call at 1. cbn [store tasks trace]. rewrite Hsend.
  rewrite Hn2, Hs2.
  destruct (truthy (dict_get email_result "success")).
  - unfold bind at 1. unfold bind at 1.
    unfold bind at 1, read. cbn [store tasks trace].
    unfold bind at 1, call. cbn [store tasks trace]. rewrite Hlog.
    unfold bind at 1.
    unfold print, emit. cbn [store tasks trace].
    now rewrite <- !app_assoc.
  - reflexivity.
Qed.

(** X14: when the store refuses the flag, the exception leaves the flagger
    right after the attempt and then the task: the confirmation line is
    not printed, and the call attempt stays updated although no flag
    exists for it. *)
Theorem flag_creation_failure_propagates call_log payload (w : World S) id
    referral_id s1 e s2 :
  call_log !! "id" = Some id ->
  call_log !! "referral_id" = Some referral_id ->
  update_call_log svc id
    (call_update_for payload (utcnow_isoformat svc (store w))) (store w)
  = (Ok tt, s1) ->
  reschedule_time payload = None ->
  create_flag svc
    (flag_data_for referral_id (outcome_or_status payload)
       (transcript payload)) s1
  = (Raise e, s2) ->
  process_call_outcome svc call_log payload w
  = (Raise e,
     {| store := s2; tasks := tasks w;
        trace :=
          (trace (after_update svc w id payload s1)
           ++ [EvPrint ("📞 Call outcome: " +:+ outcome_or_status payload);
               EvPrint ("   Referral " +:+ py_str referral_id
                        +:+ " remains MISSED - creating follow-up flag");
               EvCreateFlag
                 (flag_data_for referral_id (outcome_or_status payload)
                    (transcript payload))])%list |}).
Proof.
  intros Hid Hrid Hupd Htime Hflag.
  rewrite (process_call_outcome_run svc _ payload _ _ _ _ Hid Hrid Hupd).
  rewrite Htime. unfold follow_up_branch, after_update.
  unfold bind at 1, print at 1, emit at 1.
  unfold bind at 1, print at 1, emit at 1. cbn [store tasks trace].
  unfold create_follow_up_flag, bind, call. cbn [store tasks trace].
  rewrite Hflag. now rewrite <- !app_assoc.
Qed.

End OrchestratorEdges.

(** ** The title of a flag and the resolution table *)








Lemma resolution_map_word (o : string) (r : CallResolution) :
  resolution_map !! o = Some r <-> o = provider_word r.
Proof.
  unfold resolution_map; simpl. split.
  - intros H.
    repeat (rewrite lookup_insert in H; case_decide;
            [subst; injection H as <-; reflexivity|]).
    now rewrite lookup_empty in H.
  - intros ->. now destruct r.
Qed.

Section Resolution.
Context `{DT : DateTimeLib}.

(** X16: the stored resolution and the provider's outcome word determine
    each other: the resolution is [r] exactly when the outcome is the one
    word the table has for [r]; it is null for an absent, empty or unknown
    outcome. *)
Theorem resolution_names_its_outcome (payload : ElevenLabsWebhookPayload)
    (r : CallResolution) :
  mapped_resolution payload = Some r
  <-> outcome payload = Some (provider_word r).
Proof.
  unfold mapped_resolution, str_truthy.
  destruct (outcome payload) as [o|]; [|split; discriminate].
  destruct (String.eqb_spec o "") as [->|_]; simpl.
  - split; [discriminate|]. intros [= H]. now destruct r.
  - rewrite resolution_map_word. split; congruence.
Qed.

End Resolution.

(** * Properties of the authentication router *)

Section AuthProperties.
Import Auth.
Context {UUID S : Type} (cfg : Config) (lib : Libs UUID S).

(** X17: an unknown email and a wrong password are answered alike: the
    same 401 with the same detail and header, after the one lookup, with
    nothing written, so the answer does not tell whether the account
    exists. *)
Theorem login_rejections_look_alike form_data (w : World UUID S) row :
  get_user_by_email lib (username form_data) (store w) = Returns row ->
  truthy_row row = None
  \/ (exists user hashed,
        truthy_row row = Some user
        /\ user !! "password_hash" = Some hashed
        /\ pwd_verify lib (form_password form_data) hashed = Returns false) ->
  login cfg lib form_data w
  = (Raises login_rejected,
     {| store := store w;
        calls := (calls w ++ [GetUserByEmail (username form_data)])%list |}).
Proof.
  intros Hget Hbad. unfold login. unfold bind at 1, fetch. rewrite Hget.
  destruct Hbad as [-> | (user & hashed & -> & Hhash & Hverify)];
    [reflexivity|].
  unfold bind at 1, lift, Auth.subscript. rewrite Hhash.
  unfold bind at 1, verify_password. now rewrite Hverify.
Qed.

(** X18: a deactivated account that presents the right password is
    answered 403; its last login is not updated and no token is signed. *)
Theorem inactive_account_cannot_log_in form_data (w : World UUID S) row user
    hashed :
  get_user_by_email lib (username form_data) (store w) = Returns row ->
  truthy_row row = Some user ->
  user !! "password_hash" = Some hashed ->
  pwd_verify lib (form_password form_data) hashed = Returns true ->
  is_active user = false ->
  login cfg lib form_data w
  = (Raises (HTTPException HTTP_403_FORBIDDEN "User account is inactive" []),
     {| store := store w;
        calls := (calls w ++ [GetUserByEmail (username form_data)])%list |}).
Proof.
  intros Hget Hrow Hhash Hverify Hactive.
  unfold login. unfold bind at 1, fetch. rewrite Hget, Hrow.
  unfold bind at 1, lift, Auth.subscript. rewrite Hhash.
  unfold bind at 1, verify_password. rewrite Hverify. cbn [negb].
  now rewrite Hactive.
Qed.



(** X20: a zero [timedelta] counts as no [expires_delta]: the default
    lifetime is used.  Whatever the lifetime, the claims are the data with
    "exp" set: an "exp" already in the data is overwritten and no other key
    changes. *)
Theorem zero_delta_means_default_lifetime (data : dict) (w : World UUID S) :
  create_access_token cfg lib data (Some 0) w
  = create_access_token cfg lib data None w
  /\ (forall expires_delta now,
        exists expire,
          claims_for cfg data expires_delta now !! "exp" = Some (PInt expire))
  /\ (forall expires_delta now k,
        k <> "exp" ->
        claims_for cfg data expires_delta now !! k = data !! k).
Proof.
  split; [reflexivity|]. split.
  - intros delta now. unfold claims_for. eexists. apply lookup_insert_eq.
  - intros delta now k Hk. unfold claims_for.
    now rewrite lookup_insert_ne.
Qed.

(** X21: a token that the JWT library rejects, or whose claims have no
    "sub", is answered 401 "Could not validate credentials" before the
    store is asked anything. *)
Theorem bad_token_is_rejected_before_lookup token (w : World UUID S) :
  (exists msg,
     jwt_decode lib token (SECRET_KEY cfg) [ALGORITHM cfg] (store w)
     = Raises (JWTError msg))
  \/ (exists payload,
        jwt_decode lib token (SECRET_KEY cfg) [ALGORITHM cfg] (store w)
        = Returns payload
        /\ dict_get payload "sub" = PNone) ->
  get_current_user_from_token cfg lib token w
  = (Raises credentials_exception, w).
Proof.
  intros H. unfold get_current_user_from_token.
  unfold bind at 1, try_except_JWTError, bind at 1.
  destruct H as [(msg & ->) | (payload & -> & Hsub)]; [reflexivity|].
  now rewrite Hsub.
Qed.

(** X22: only JWTError becomes a 401.  Any other exception of the decoder,
    and any exception of parsing the subject as a UUID, leaves the
    dependency as it is, before the store is asked anything. *)
Theorem other_token_errors_pass_through token (w : World UUID S) e :
  (jwt_decode lib token (SECRET_KEY cfg) [ALGORITHM cfg] (store w) = Raises e
   /\ is_JWTError e = false)
  \/ (exists payload,
        jwt_decode lib token (SECRET_KEY cfg) [ALGORITHM cfg] (store w)
        = Returns payload
        /\ dict_get payload "sub" <> PNone
        /\ parse_uuid lib (dict_get payload "sub") = Raises e) ->
  get_current_user_from_token cfg lib token w = (Raises e, w).
Proof.
  intros H. unfold get_current_user_from_token.
  unfold bind at 1, try_except_JWTError, bind at 1.
  destruct H as [[-> Hne] | (payload & -> & Hsub & Huuid)].
  - now destruct e.
  - destruct (dict_get payload "sub") eqn:Hs; [contradiction| | |];
      unfold ret; unfold bind at 1, lift; now rewrite Huuid.
Qed.

(** X23: whatever user the token dependency returns is the row the store
    holds under the token's subject and is active; the dependency writes
    nothing, and the further check of [get_current_active_user] always
    lets that user through. *)
Theorem resolved_user_is_active token (w w' : World UUID S) current_user :
  get_current_user_from_token cfg lib token w = (Returns current_user, w') ->
  is_active current_user = true
  /\ get_current_active_user current_user = Returns current_user
  /\ store w' = store w
  /\ exists payload id,
       jwt_decode lib token (SECRET_KEY cfg) [ALGORITHM cfg] (store w)
       = Returns payload
       /\ parse_uuid lib (dict_get payload "sub") = Returns id
       /\ get_user lib id (store w) = Returns (Some current_user)
       /\ calls w' = (calls w ++ [GetUser id])%list.
Proof.
  unfold get_current_user_from_token.
  unfold bind at 1, try_except_JWTError, bind at 1.
  destruct (jwt_decode lib token _ _ (store w)) as [payload|e] eqn:Hdec;
    [|destruct e; discriminate].
  assert (Hcont : forall sub,
    dict_get payload "sub" = sub ->
    (id <- lift (parse_uuid lib sub) ;;
     user <- fetch (GetUser id) (get_user lib id) ;;
     match user with
     | None => raise credentials_exception
     | Some user =>
         if negb (is_active user) then
           raise (HTTPException HTTP_403_FORBIDDEN
                    "User account is inactive" [])
         else ret user
     end)%auth w = (Returns current_user, w') ->
    is_active current_user = true
    /\ get_current_active_user current_user = Returns current_user
    /\ store w' = store w
    /\ exists payload0 id,
         Returns payload = Returns payload0
         /\ parse_uuid lib (dict_get payload0 "sub") = Returns id
         /\ get_user lib id (store w) = Returns (Some current_user)
         /\ calls w' = (calls w ++ [GetUser id])%list).
  { intros sub Hsub. unfold bind at 1, lift.
    destruct (parse_uuid lib sub) as [id|e] eqn:Huuid; [|discriminate].
    unfold bind at 1, fetch.
    destruct (get_user lib id (store w)) as [[user|]|e] eqn:Hget;
      [|discriminate|discriminate].
    destruct (is_active user) eqn:Hactive; [|discriminate].
    intros [= <- <-]. cbn [store calls].
    unfold get_current_active_user. rewrite Hactive.
    repeat split; try reflexivity.
    exists payload, id. rewrite Hsub. now repeat split. }
  destruct (dict_get payload "sub") eqn:Hs; [discriminate| | |];
    unfold ret; intros Hrun; eapply Hcont; eauto.
Qed.

(** X24: registering an email that is already taken is answered 400 after
    the one lookup: no password is hashed and nothing is written. *)
Theorem taken_email_is_not_registered new_user (w : World UUID S) row
    existing :
  get_user_by_email lib (email new_user) (store w) = Returns row ->
  truthy_row row = Some existing ->
  register_user lib new_user w
  = (Raises (HTTPException HTTP_400_BAD_REQUEST "Email already registered" []),
     {| store := store w;
        calls := (calls w ++ [GetUserByEmail (email new_user)])%list |}).
Proof.
  intros Hget Hrow. unfold register_user. unfold bind at 1, fetch.
  now rewrite Hget, Hrow.
Qed.

(** X25: for a free email the one write is [create_user] with a record of
    six keys that holds the hash under "password_hash", has no "password"
    key and is active; the store's row is returned, and when the store
    answers no row the request fails with 500 although the write was
    issued. *)
Theorem registration_stores_the_hash new_user (w : World UUID S) row
    password_hash s1 created s2 :
  get_user_by_email lib (email new_user) (store w) = Returns row ->
  truthy_row row = None ->
  pwd_hash lib (password new_user) (store w) = (Returns password_hash, s1) ->
  create_user lib (user_data_for new_user password_hash) s1
  = (Returns created, s2) ->
  let user_data := user_data_for new_user password_hash in
  register_user lib new_user w
  = (match truthy_row created with
     | Some created_user => Returns created_user
     | None =>
         Raises (HTTPException HTTP_500_INTERNAL_SERVER_ERROR
                   "Failed to create user" [])
     end,
     {| store := s2;
        calls :=
          (calls w
           ++ [GetUserByEmail (email new_user); CreateUser user_data])%list |})
  /\ user_data !! "password_hash" = Some (PStr password_hash)
  /\ user_data !! "password" = None
  /\ size user_data = 6%nat
  /\ is_active user_data = true.
Proof.
  intros Hget Hrow Hhash Hcreate user_data. subst user_data. split.
  - unfold register_user. unfold bind at 1, fetch. rewrite Hget, Hrow.
    unfold bind at 1, get_password_hash, effect. cbn [store calls].
    rewrite Hhash. unfold bind at 1, write. cbn [store calls].
    rewrite Hcreate.
    destruct (truthy_row created); unfold ret, raise;
      now rewrite <- app_assoc.
  - repeat split; reflexivity.
Qed.

(** X26: the token a successful login returns leads the token dependency
    back to the same account: when it decodes to the subject that was
    signed, the dependency asks the store for the very id whose last login
    was just updated, and answers with that row if it is active. *)
Theorem issued_token_resolves_same_account form_data
    (w w1 : World UUID S) response claims :
  login cfg lib form_data w = (Returns response, w1) ->
  jwt_decode lib (access_token response) (SECRET_KEY cfg) [ALGORITHM cfg]
    (store w1) = Returns claims ->
  claims !! "sub" = user response !! "id" ->
  user response !! "id" <> Some PNone ->
  exists id,
    calls w1
    = (calls w
       ++ [GetUserByEmail (username form_data); UpdateUserLastLogin id])%list
    /\ get_current_user_from_token cfg lib (access_token response) w1
       = (match get_user lib id (store w1) with
          | Returns (Some current_user) =>
              if is_active current_user then Returns current_user
              else Raises (HTTPException HTTP_403_FORBIDDEN
                             "User account is inactive" [])
          | Returns None => Raises credentials_exception
          | Raises e => Raises e
          end,
          {| store := store w1;
             calls := (calls w1 ++ [GetUser id])%list |}).
Proof.
  unfold login. unfold bind at 1, fetch.
  destruct (get_user_by_email lib _ (store w)) as [row|e]; [|discriminate].
  destruct (truthy_row row) as [u|]; [|discriminate].
  unfold bind at 1, lift.
  destruct (Auth.subscript u "password_hash") as [hashed|e]; [|discriminate].
  unfold bind at 1.
  destruct (verify_password lib _ hashed) as [[|]|e];
    [|discriminate|discriminate]. cbn [negb].
  destruct (is_active u); [|discriminate]. cbn [negb].
  unfold bind at 1, Auth.subscript at 1.
  destruct (u !! "id") as [raw_id|] eqn:Hid; [|discriminate].
  unfold bind at 1.
  destruct (parse_uuid lib raw_id) as [id|e] eqn:Huuid; [|discriminate].
  unfold bind at 1, write. cbn [store calls].
  destruct (update_user_last_login lib id (store w)) as [[[]|e] s1];
    [|discriminate].
  unfold bind at 1, Auth.subscript at 1. rewrite Hid.
  unfold bind at 1.
  destruct (Auth.subscript u "email") as [ue|e]; [|discriminate].
  unfold bind at 1.
  destruct (Auth.subscript u "role") as [ur|e]; [|discriminate].
  unfold bind at 1.
  destruct (create_access_token cfg lib _ _ _) as [[tok|e] w2] eqn:Htok;
    [|discriminate].
  assert (Hw2 : w2 = {| store := s1;
                        calls := ((calls w ++ [GetUserByEmail (username form_data)])
                                  ++ [UpdateUserLastLogin id])%list |}).
  { revert Htok. unfold create_access_token, bind, read, lift.
    cbn [store calls]. now destruct (jwt_encode lib _ _ _); intros [= <-]. }
  unfold ret. intros [= <- <-]. cbn [access_token user]. subst w2.
  cbn [store calls]. intros Hdec Hsub Hnone.
  exists id. split; [now rewrite <- app_assoc|].
  unfold get_current_user_from_token.
  unfold bind at 1, try_except_JWTError, bind at 1. cbn [store calls].
  rewrite Hdec.
  assert (Hget : dict_get claims "sub" = raw_id)
    by (unfold dict_get; now rewrite Hsub, Hid).
  rewrite Hget.
  assert (Hcase : (match raw_id with
                   | PNone => raise credentials_exception
                   | _ => ret raw_id
                   end : M UUID S pyval) = ret raw_id).
  { destruct raw_id; try reflexivity. now rewrite Hid in Hnone. }
  rewrite Hcase. unfold ret.
  unfold bind at 1, lift. rewrite Huuid.
  unfold bind at 1, fetch. cbn [store calls].
  destruct (get_user lib id s1) as [[cu|]|e]; try reflexivity.
  now destruct (is_active cu).
Qed.

End AuthProperties.

(** ** The further properties on the in-memory deployment *)

Section FurtherScenarios.
Import InMemory.

Lemma malformed_payload_is_rejected_witness :
  parse_payload healthy "{"
  = Raise (Exception "Expecting value: line 1 column 1 (char 0)")
  /\ handle_elevenlabs_webhook healthy "{" (signed "{") (start store0)
     = (Raise (HTTPException 400
                 "Invalid payload: Expecting value: line 1 column 1 (char 0)"),
        {| store := store0; tasks := [];
           trace := [EvVerifySignature "{" "sha256={"; EvParsePayload "{"] |}).
Proof.
  split; [reflexivity|].
  apply (malformed_payload_is_rejected healthy "{" (signed "{") _
           (start store0) eq_refl eq_refl).
Defined.

Lemma resolved_event_is_queued_once_witness :
  truthy_row (Some call_log_c1) = Some call_log_c1
  /\ tasks (handle_elevenlabs_webhook healthy "declined" (signed "declined")
             (start store0)).2
     = [(call_log_c1, declined_event)].
Proof.
  split; [reflexivity|].
  rewrite (resolved_event_is_queued_once healthy "declined"
             (signed "declined") declined_event call_log_c1
             (Some call_log_c1) (start store0)
             eq_refl eq_refl eq_refl eq_refl eq_refl).
  reflexivity.
Defined.

Lemma subflows_need_a_written_update_witness :
  let run :=
    process_call_outcome healthy call_log_c1 declined_event (start store0) in
  existsb (fun e => is_reschedule_call e || is_flag_call e) (trace run.2)
  = true
  /\ exists id referral_id s1,
       call_log_c1 !! "id" = Some id
       /\ call_log_c1 !! "referral_id" = Some referral_id
       /\ update_call_log healthy id (call_update_for declined_event "t0")
            store0 = (Ok tt, s1).
Proof.
  intros run. split; [reflexivity|].
  apply (subflows_need_a_written_update healthy call_log_c1 declined_event
           (start store0) (trace run.2) eq_refl eq_refl).
Defined.

Lemma row_without_referral_is_updated_then_dropped_witness :
  row_without_referral !! "referral_id" = None
  /\ process_call_outcome healthy row_without_referral declined_event
       (start store0)
     = (Raise (KeyError "referral_id"),
        after_update healthy (start store0) (PStr "c1") declined_event
          (updated declined_event)).
Proof.
  split; [reflexivity|].
  apply (row_without_referral_is_updated_then_dropped healthy
           row_without_referral declined_event (start store0) (PStr "c1")
           (updated declined_event) eq_refl eq_refl eq_refl).
Defined.

Lemma failed_update_stops_processing_witness :
  call_log_c1 !! "id" = Some (PStr "c1")
  /\ process_call_outcome store_refuses_update call_log_c1 declined_event
       (start store0)
     = (Raise (Exception "connection reset"),
        after_update store_refuses_update (start store0) (PStr "c1")
          declined_event store0).
Proof.
  split; [reflexivity|].
  apply (failed_update_stops_processing store_refuses_update call_log_c1
           declined_event (start store0) (PStr "c1") _ store0
           eq_refl eq_refl).
Defined.

Lemma empty_outcome_is_absent_witness :
  outcome empty_outcome_event = Some ""
  /\ process_call_outcome healthy call_log_c1 empty_outcome_event
     = process_call_outcome healthy call_log_c1
         (with_outcome None empty_outcome_event).
Proof.
  split; [reflexivity|].
  apply (empty_outcome_is_absent healthy call_log_c1 empty_outcome_event
           eq_refl).
Defined.

Lemma unknown_referral_is_skipped_witness :
  get_referral healthy (PStr "r404") (updated rescheduled_event) = Ok None
  /\ (process_call_outcome healthy row_of_lost_referral rescheduled_event
        (start store0)).1 = Ok tt
  /\ flags (store (process_call_outcome healthy row_of_lost_referral
                     rescheduled_event (start store0)).2) = [].
Proof.
  split; [reflexivity|].
  rewrite (unknown_referral_is_skipped healthy row_of_lost_referral
             rescheduled_event (start store0) (PStr "c1") (PStr "r404")
             (updated rescheduled_event) new_time None
             eq_refl eq_refl eq_refl eq_refl eq_refl eq_refl).
  split; reflexivity.
Defined.

Lemma missing_patient_name_sends_nothing_witness :
  address_only !! "patient_name" = None
  /\ email_step healthy (PStr "r1") address_only new_time None (start store0)
     = (Ok tt,
        {| store := store0; tasks := [];
           trace :=
             [EvPrint "⚠️  Failed to send reschedule email: 'patient_name'"]
        |}).
Proof.
  split; [reflexivity|].
  apply (missing_patient_name_sends_nothing healthy (PStr "r1") address_only
           new_time None (start store0) eq_refl eq_refl).
Defined.

Lemma email_failure_is_swallowed_witness :
  send_appointment_rescheduled_email mailer_down
    (rescheduled_email_for referral_r1 new_time None) store0
  = (Raise (Exception "SMTP timeout"), store0)
  /\ email_step mailer_down (PStr "r1") referral_r1 new_time None
       (start store0)
     = (Ok tt,
        {| store := store0; tasks := [];
           trace :=
             [EvSendEmail (rescheduled_email_for referral_r1 new_time None);
              EvPrint "⚠️  Failed to send reschedule email: SMTP timeout"] |}).
Proof.
  split; [reflexivity|].
  apply (email_failure_is_swallowed mailer_down (PStr "r1") referral_r1
           new_time None (start store0) (PStr "Pat") (PStr "cardiology")
           _ store0 eq_refl eq_refl eq_refl eq_refl).
Defined.

Lemma email_is_logged_only_on_success_witness :
  let sent :=
    mem_send_email (rescheduled_email_for referral_r1 new_time None) store0 in
  referral_r1 !! "patient_name" = Some (PStr "Pat")
  /\ length (email_logs
               (store (email_step healthy (PStr "r1") referral_r1 new_time
                         None (start store0)).2)) = 1%nat.
Proof.
  intros sent. split; [reflexivity|].
  rewrite (email_is_logged_only_on_success healthy (PStr "r1") referral_r1
             new_time None (start store0) (PStr "Pat") (PStr "cardiology")
             (<["success" := PBool true]> {["message_id" := PStr "msg-1"]})
             sent.2
             (mem_create_email_log
                (email_log_for (PStr "r1") referral_r1
                   (<["success" := PBool true]>
                      {["message_id" := PStr "msg-1"]})
                   (timestamp sent.2)) sent.2).2
             eq_refl eq_refl eq_refl eq_refl eq_refl).
  reflexivity.
Defined.

Lemma flag_creation_failure_propagates_witness :
  reschedule_time declined_event = None
  /\ (process_call_outcome store_refuses_flag call_log_c1 declined_event
        (start store0)).1
     = Raise (Exception "connection reset").
Proof.
  split; [reflexivity|].
  rewrite (flag_creation_failure_propagates store_refuses_flag call_log_c1
             declined_event (start store0) (PStr "c1") (PStr "r1")
             (updated declined_event) (Exception "connection reset")
             (updated declined_event)
             eq_refl eq_refl eq_refl eq_refl eq_refl).
  reflexivity.
Defined.

End FurtherScenarios.

(** ** The authentication router on the stand-ins *)

Section AuthScenarios.
Import Auth.

Lemma login_rejections_look_alike_witness :
  toy_verify "guess" (PStr (toy_hash 7 "nurse123")) = Returns false
  /\ login toy_config toy_libs (nurse_form "guess") (begin (ward true))
     = (Raises login_rejected,
        {| store := ward true;
           calls := [GetUserByEmail "nurse@hospital.com"] |}).
Proof.
  split; [reflexivity|].
  apply (login_rejections_look_alike toy_config toy_libs (nurse_form "guess")
           (begin (ward true)) (Some (nurse true)) eq_refl).
  right. exists (nurse true), (PStr (toy_hash 7 "nurse123")).
  repeat split; reflexivity.
Defined.

Lemma inactive_account_cannot_log_in_witness :
  is_active (nurse false) = false
  /\ login toy_config toy_libs (nurse_form "nurse123") (begin (ward false))
     = (Raises (HTTPException 403 "User account is inactive" []),
        {| store := ward false;
           calls := [GetUserByEmail "nurse@hospital.com"] |}).
Proof.
  split; [reflexivity|].
  apply (inactive_account_cannot_log_in toy_config toy_libs
           (nurse_form "nurse123") (begin (ward false)) (Some (nurse false))
           (nurse false) (PStr (toy_hash 7 "nurse123"))
           eq_refl eq_refl eq_refl eq_refl eq_refl).
Defined.


Lemma bad_token_is_rejected_before_lookup_witness :
  toy_decode "garbage" (SECRET_KEY toy_config) [ALGORITHM toy_config]
    (ward true)
  = Raises (JWTError "Signature verification failed.")
  /\ get_current_user_from_token toy_config toy_libs "garbage"
       (begin (ward true))
     = (Raises credentials_exception, begin (ward true)).
Proof.
  split; [reflexivity|].
  apply (bad_token_is_rejected_before_lookup toy_config toy_libs "garbage"
           (begin (ward true))).
  left. eexists. reflexivity.
Defined.

Lemma other_token_errors_pass_through_witness :
  toy_uuid (PStr "abc")
  = Raises (ValueError "badly formed hexadecimal UUID string")
  /\ get_current_user_from_token toy_config toy_libs
       "your-secret-key-change-in-production.abc" (begin (ward true))
     = (Raises (ValueError "badly formed hexadecimal UUID string"),
        begin (ward true)).
Proof.
  split; [reflexivity|].
  apply (other_token_errors_pass_through toy_config toy_libs
           "your-secret-key-change-in-production.abc" (begin (ward true))).
  right. exists {["sub" := PStr "abc"]}.
  split; [reflexivity|]. split; [discriminate | reflexivity].
Defined.

Lemma resolved_user_is_active_witness :
  get_current_user_from_token toy_config toy_libs nurse_token
    (begin (ward true))
  = (Returns (nurse true),
     {| store := ward true; calls := [GetUser nurse_id] |})
  /\ get_current_active_user (nurse true) = Returns (nurse true).
Proof.
  assert (H : get_current_user_from_token toy_config toy_libs nurse_token
                (begin (ward true))
              = (Returns (nurse true),
                 {| store := ward true; calls := [GetUser nurse_id] |}))
    by reflexivity.
  split; [exact H|].
  exact (proj1 (proj2 (resolved_user_is_active toy_config toy_libs
                         nurse_token _ _ _ H))).
Defined.

Lemma taken_email_is_not_registered_witness :
  get_user_by_email toy_libs (email returning) (ward true)
  = Returns (Some (nurse true))
  /\ register_user toy_libs returning (begin (ward true))
     = (Raises (HTTPException 400 "Email already registered" []),
        {| store := ward true;
           calls := [GetUserByEmail "nurse@hospital.com"] |}).
Proof.
  split; [reflexivity|].
  apply (taken_email_is_not_registered toy_libs returning (begin (ward true))
           (Some (nurse true)) (nurse true) eq_refl eq_refl).
Defined.

Lemma registration_stores_the_hash_witness :
  get_user_by_email toy_libs (email newcomer) (ward true) = Returns None
  /\ user_data_for newcomer (toy_hash 8 "s3cret") !! "password" = None
  /\ calls (register_user toy_libs newcomer (begin (ward true))).2
     = [GetUserByEmail "new@hospital.com";
        CreateUser (user_data_for newcomer (toy_hash 8 "s3cret"))].
Proof.
  split; [reflexivity|].
  destruct (registration_stores_the_hash toy_libs newcomer (begin (ward true))
              None (toy_hash 8 "s3cret")
              (pwd_hash toy_libs "s3cret" (ward true)).2
              (Some (<["id" := PStr "00000000-0000-4000-8000-000000000002"]>
                       (user_data_for newcomer (toy_hash 8 "s3cret"))))
              (toy_create_user (user_data_for newcomer (toy_hash 8 "s3cret"))
                 (pwd_hash toy_libs "s3cret" (ward true)).2).2
              eq_refl eq_refl eq_refl eq_refl)
    as (Hrun & _ & Hpw & _).
  split; [exact Hpw|]. now rewrite Hrun.
Defined.

Lemma issued_token_resolves_same_account_witness :
  nurse_login = (Returns nurse_response, nurse_login.2)
  /\ exists id,
       calls nurse_login.2
       = [GetUserByEmail "nurse@hospital.com"; UpdateUserLastLogin id]
       /\ (get_current_user_from_token toy_config toy_libs nurse_token
             nurse_login.2).2
          = {| store := store nurse_login.2;
               calls := (calls nurse_login.2 ++ [GetUser id])%list |}.
Proof.
  assert (H : nurse_login = (Returns nurse_response, nurse_login.2))
    by reflexivity.
  split; [exact H|].
  destruct (issued_token_resolves_same_account toy_config toy_libs
              (nurse_form "nurse123") (begin (ward true)) nurse_login.2
              nurse_response {["sub" := PStr nurse_id]} H eq_refl eq_refl)
    as (id & Hcalls & Hrun); [discriminate|].
  exists id. split; [exact Hcalls|].
  change (access_token nurse_response) with nurse_token in Hrun.
  now rewrite Hrun.
Defined.

End AuthScenarios.
